(** * Content and Commerce AI example workers: classification response pipeline

    A shallow embedding of two Asset Compute metadata workers:

    - [worker-ccai-colorextract.js]: posts the asset to the colour
      extraction service, decodes the multipart answer ([parseColors]),
      sorts the colours ([sortColors]) and writes three XMP projections;
    - the custom-classifier tag worker: calls one classifier endpoint
      per configured id ([callClassifier]) and writes the concatenated
      tags as [ccai:labels].

    JavaScript values are modelled by the inductive type [jsval]; a
    JavaScript number is modelled by the rational it denotes (binary64
    rounding of literals is not modelled, and neither are NaN inputs:
    NaN only appears as the result of a coercion, as [None]).  Thrown
    exceptions are values of [exn]; asynchronous worker code is written
    in a state-and-exception monad over a [world] that records every
    HTTP request issued and every file written. *)

From Stdlib Require Import ZArith QArith Qround String Ascii List Bool Lia Lqa.
From Stdlib Require Import Sorting.Sorted Sorting.Permutation.
From Stdlib Require DecimalString.
Import ListNotations.

Local Open Scope string_scope.
Local Open Scope Z_scope.

(** ** JavaScript strings *)

Module JsString.

(** [s.split(sep)] for a non-empty separator, scanning left to right
    for non-overlapping occurrences.  [skip] counts the characters of
    a matched separator that are still to be dropped.  The result is
    the piece being read and the pieces after it. *)
Fixpoint split_aux (sep s : string) (skip : nat) : string * list string :=
  match s with
  | EmptyString => (EmptyString, [])
  | String c r =>
      match skip with
      | S k => split_aux sep r k
      | O =>
          if prefix sep s
          then (EmptyString,
                let (p, ps) := split_aux sep r (Nat.pred (String.length sep)) in
                p :: ps)
          else let (p, ps) := split_aux sep r 0 in (String c p, ps)
      end
  end.

Definition chars (s : string) : list string :=
  map (fun c => String c EmptyString) (list_ascii_of_string s).

(** [s.split(sep)]; an empty separator yields the characters. *)
Definition split (s sep : string) : list string :=
  match sep with
  | EmptyString => chars s
  | _ => let (p, ps) := split_aux sep s 0 in p :: ps
  end.

(** [s.indexOf(needle)]: the first position, or -1. *)
Definition indexOf (s needle : string) : Z :=
  match index 0 needle s with
  | Some n => Z.of_nat n
  | None => -1
  end.

Definition is_space (c : ascii) : bool :=
  match nat_of_ascii c with
  | 9%nat | 10%nat | 11%nat | 12%nat | 13%nat | 32%nat => true
  | _ => false
  end.

Fixpoint trim_start (s : string) : string :=
  match s with
  | String c r => if is_space c then trim_start r else s
  | EmptyString => EmptyString
  end.

Fixpoint trim_end (s : string) : string :=
  match s with
  | EmptyString => EmptyString
  | String c r =>
      match trim_end r with
      | EmptyString => if is_space c then EmptyString else String c EmptyString
      | r' => String c r'
      end
  end.

(** [s.trim()]. *)
Definition trim (s : string) : string := trim_end (trim_start s).

Fixpoint drop (n : nat) (s : string) : string :=
  match n, s with
  | O, _ => s
  | S k, String _ r => drop k r
  | S _, EmptyString => EmptyString
  end.

(** The first occurrence of [pat] in [s]: the text before it and the
    text after it. *)
Fixpoint cut (s pat : string) : option (string * string) :=
  if prefix pat s then Some (EmptyString, drop (String.length pat) s)
  else
    match s with
    | EmptyString => None
    | String c r =>
        match cut r pat with
        | Some (before, after) => Some (String c before, after)
        | None => None
        end
    end.

(** The replacement text with its dollar patterns expanded: two
    dollars give a dollar, dollar-ampersand the matched text,
    dollar-backtick the text before the match and dollar-quote the text
    after it; with a string pattern there are no groups, and any other
    dollar stays as it is. *)
Fixpoint expand (by_ matched before after : string) : string :=
  match by_ with
  | EmptyString => EmptyString
  | String d t =>
      match t with
      | String c r =>
          if Ascii.eqb d "$" then
            if Ascii.eqb c "$" then String "$" (expand r matched before after)
            else if Ascii.eqb c "&" then matched ++ expand r matched before after
            else if Ascii.eqb c "`" then before ++ expand r matched before after
            else if Ascii.eqb c "'" then after ++ expand r matched before after
            else String d (expand t matched before after)
          else String d (expand t matched before after)
      | EmptyString => String d EmptyString
      end
  end.

(** [s.replace(pat, by)] with a string pattern: the first occurrence
    only is replaced. *)
Definition replace (s pat by_ : string) : string :=
  match cut s pat with
  | Some (before, after) => before ++ expand by_ pat before after ++ after
  | None => s
  end.

(** Decimal text of an integer, as in a template literal. *)
Definition of_Z (z : Z) : string :=
  DecimalString.NilZero.string_of_int (Z.to_int z).

Definition of_nat (n : nat) : string := of_Z (Z.of_nat n).

(** [a || b] on strings that may be [undefined]: the empty string is
    falsy. *)
Definition or_default (a : option string) (b : string) : string :=
  match a with
  | Some EmptyString | None => b
  | Some s => s
  end.

(** Text of a value that may be [undefined] inside a template
    literal. *)
Definition template (a : option string) : string :=
  match a with
  | Some s => s
  | None => "undefined"
  end.

End JsString.


(** ** JavaScript values and exceptions *)

(** The values a parsed JSON text can hold, plus [undefined].  An
    object is the list of its own members in enumeration order. *)
#[local] Unset Elimination Schemes.
Inductive jsval : Type :=
| JUndef
| JNull
| JBool (b : bool)
| JNum (q : Q)
| JStr (s : string)
| JArr (items : list jsval)
| JObj (members : list (string * jsval)).
#[local] Set Elimination Schemes.

(** An HTTP response as axios presents it: [status], [statusText],
    [headers] (names in lower case) and [data] (the body, already
    parsed when it is JSON text, a string otherwise). *)
Record HttpResponse : Type := mkResponse {
  status : Z;
  statusText : string;
  headers : list (string * string);
  data : jsval
}.

(** Thrown values.  [AxiosError r] is the rejection of an axios call;
    [r] is its [response] property, absent when no reply arrived. *)
Inductive exn : Type :=
| SourceCorruptError (message : string)
| Error (message : string)
| TypeError (message : string)
| SyntaxError (message : string)
| AxiosError (response : option HttpResponse)
| FsError (message : string).

Module Js.

Fixpoint lookup {A : Type} (key : string) (l : list (string * A)) : option A :=
  match l with
  | [] => None
  | (k, v) :: r => if String.eqb key k then Some v else lookup key r
  end.

(** [v.key] for a property name that is not an array index. *)
Definition get (v : jsval) (key : string) : exn + jsval :=
  match v with
  | JUndef => inl (TypeError ("Cannot read properties of undefined (reading '" ++ key ++ "')"))
  | JNull => inl (TypeError ("Cannot read properties of null (reading '" ++ key ++ "')"))
  | JObj ms => inr (match lookup key ms with Some x => x | None => JUndef end)
  | JArr l =>
      inr (if String.eqb key "length" then JNum (inject_Z (Z.of_nat (List.length l))) else JUndef)
  | JStr s =>
      inr (if String.eqb key "length" then JNum (inject_Z (Z.of_nat (String.length s))) else JUndef)
  | JBool _ | JNum _ => inr JUndef
  end.

(** [v[0]]. *)
Definition get0 (v : jsval) : exn + jsval :=
  match v with
  | JUndef => inl (TypeError "Cannot read properties of undefined (reading '0')")
  | JNull => inl (TypeError "Cannot read properties of null (reading '0')")
  | JObj ms => inr (match lookup "0" ms with Some x => x | None => JUndef end)
  | JArr l => inr (match l with x :: _ => x | [] => JUndef end)
  | JStr s => inr (match s with String c _ => JStr (String c EmptyString) | EmptyString => JUndef end)
  | JBool _ | JNum _ => inr JUndef
  end.

Fixpoint number_from {A : Type} (n : nat) (l : list A) : list (string * A) :=
  match l with
  | [] => []
  | x :: r => (JsString.of_nat n, x) :: number_from (S n) r
  end.

(** The (name, value) pairs a [for (const name in v)] loop visits that
    reads [v[name]] in its body. *)
Definition enumerate (v : jsval) : list (string * jsval) :=
  match v with
  | JObj ms => ms
  | JArr l => number_from 0 l
  | JStr s => number_from 0 (map JStr (JsString.chars s))
  | JUndef | JNull | JBool _ | JNum _ => []
  end.

(** ToNumber on the values it is modelled for; [None] is NaN.
    Numbers, [null], booleans and [undefined] are converted as
    JavaScript converts them.  Strings, arrays and objects are given
    NaN here, which is not what JavaScript does for them (a numeric
    string is a number, an object can make the conversion throw): the
    properties below that go through this conversion are stated for
    numbers, [null], booleans and [undefined] only. *)
Definition ToNumber (v : jsval) : option Q :=
  match v with
  | JNum q => Some q
  | JNull => Some 0%Q
  | JBool true => Some 1%Q
  | JBool false => Some 0%Q
  | JUndef | JStr _ | JArr _ | JObj _ => None
  end.

(** [a - b]. *)
Definition sub (a b : jsval) : option Q :=
  match ToNumber a, ToNumber b with
  | Some x, Some y => Some (x - y)%Q
  | _, _ => None
  end.

(** The truth value of [v] in a condition or under [||]. *)
Definition truthy (v : jsval) : bool :=
  match v with
  | JUndef | JNull => false
  | JBool b => b
  | JNum q => negb (Qeq_bool q 0)
  | JStr EmptyString => false
  | JStr _ | JArr _ | JObj _ => true
  end.

(** ToString, as a template literal applies it, kept for its outcome
    only: the text goes to the console, which is not recorded.  A
    primitive always converts.  An object made by [JSON.parse] converts
    through [Object.prototype.toString] unless it has a member named
    [toString] of its own: no JSON value is callable, [valueOf] gives
    back the object, and the conversion throws.  An array is joined:
    [null] and [undefined] elements give the empty text, every other
    element is converted in turn. *)
Fixpoint checkToString (v : jsval) : exn + unit :=
  match v with
  | JUndef | JNull | JBool _ | JNum _ | JStr _ => inr tt
  | JObj ms =>
      match lookup "toString" ms with
      | Some _ => inl (TypeError "Cannot convert object to primitive value")
      | None => inr tt
      end
  | JArr items =>
      (fix join (l : list jsval) : exn + unit :=
         match l with
         | [] => inr tt
         | x :: rest =>
             match checkToString x with
             | inl e => inl e
             | inr _ => join rest
             end
         end) items
  end.

(** [Math.round]: the nearest integer, halves towards plus infinity. *)
Definition Math_round (x : Q) : Z := Qfloor (x + (1 # 2))%Q.

End Js.

(** ** JSON.parse *)

(** A recursive-descent reader for the JSON grammar.  Text is held as
    bytes (UTF-8); a [\u] escape is re-encoded as UTF-8, each half of a
    surrogate pair on its own. *)
Module Json.

Definition is_ws (c : ascii) : bool :=
  match nat_of_ascii c with
  | 9%nat | 10%nat | 13%nat | 32%nat => true
  | _ => false
  end.

Fixpoint skip_ws (s : string) : string :=
  match s with
  | String c r => if is_ws c then skip_ws r else s
  | EmptyString => EmptyString
  end.

Definition digit (c : ascii) : option Z :=
  let n := Z.of_nat (nat_of_ascii c) in
  if (48 <=? n) && (n <=? 57) then Some (n - 48) else None.

Definition hex_digit (c : ascii) : option Z :=
  let n := Z.of_nat (nat_of_ascii c) in
  if (48 <=? n) && (n <=? 57) then Some (n - 48)
  else if (97 <=? n) && (n <=? 102) then Some (n - 87)
  else if (65 <=? n) && (n <=? 70) then Some (n - 55)
  else None.

(** Reads a run of decimal digits: its value on top of [acc], how many
    digits were read, and the rest of the text. *)
Fixpoint digits (s : string) (acc : Z) (count : nat) : Z * nat * string :=
  match s with
  | String c r =>
      match digit c with
      | Some d => digits r (10 * acc + d) (S count)
      | None => (acc, count, s)
      end
  | EmptyString => (acc, count, s)
  end.

Definition scale (mantissa exponent : Z) : Q :=
  if 0 <=? exponent then inject_Z (mantissa * 10 ^ exponent)
  else Qmake mantissa (Z.to_pos (10 ^ (- exponent))).

Definition exponent_part (s : string) : option (Z * string) :=
  match s with
  | String c r =>
      if (Ascii.eqb c "e" || Ascii.eqb c "E")%bool then
        let '(neg, r1) :=
          match r with
          | String "-" r' => (true, r')
          | String "+" r' => (false, r')
          | _ => (false, r)
          end in
        match digits r1 0 0 with
        | (_, O, _) => None
        | (e, _, r2) => Some (if neg then - e else e, r2)
        end
      else Some (0, s)
  | EmptyString => Some (0, s)
  end.

Definition fraction_part (s : string) (int : Z) : option (Z * Z * string) :=
  match s with
  | String "." r =>
      match digits r int 0 with
      | (_, O, _) => None
      | (m, n, r1) => Some (m, Z.of_nat n, r1)
      end
  | _ => Some (int, 0, s)
  end.

Definition number (s : string) : option (jsval * string) :=
  let '(neg, s1) :=
    match s with
    | String "-" r => (true, r)
    | _ => (false, s)
    end in
  let int :=
    match s1 with
    | String "0" r => Some (0, r)
    | _ => match digits s1 0 0 with
           | (_, O, _) => None
           | (i, _, r) => Some (i, r)
           end
    end in
  match int with
  | None => None
  | Some (i, r) =>
      match fraction_part r i with
      | None => None
      | Some (m, places, r1) =>
          match exponent_part r1 with
          | None => None
          | Some (e, r2) =>
              let q := scale m (e - places) in
              Some (JNum (if neg then Qopp q else q), r2)
          end
      end
  end.

Definition byte (n : Z) : ascii := ascii_of_nat (Z.to_nat n).

Definition utf8 (n : Z) (rest : string) : string :=
  if n <? 128 then String (byte n) rest
  else if n <? 2048 then
    String (byte (192 + n / 64)) (String (byte (128 + n mod 64)) rest)
  else
    String (byte (224 + n / 4096))
      (String (byte (128 + (n / 64) mod 64)) (String (byte (128 + n mod 64)) rest)).

(** The double quote character. *)
Definition dquote : ascii := byte 34.

Definition unescape (c : ascii) : option ascii :=
  if Ascii.eqb c dquote then Some dquote
  else
    match c with
    | "\"%char => Some "\"%char
    | "/"%char => Some "/"%char
    | "b"%char => Some (byte 8)
    | "f"%char => Some (byte 12)
    | "n"%char => Some (byte 10)
    | "r"%char => Some (byte 13)
    | "t"%char => Some (byte 9)
    | _ => None
    end.

(** The characters of a string literal after its opening quote, up to
    and without the closing quote. *)
Fixpoint string_body (s : string) : option (string * string) :=
  match s with
  | EmptyString => None
  | String c r =>
      if Ascii.eqb c dquote then Some (EmptyString, r)
      else if Ascii.eqb c "\" then
        match r with
        | String "u" (String h1 (String h2 (String h3 (String h4 r')))) =>
            match hex_digit h1, hex_digit h2, hex_digit h3, hex_digit h4 with
            | Some a, Some b, Some c', Some d =>
                match string_body r' with
                | Some (t, rest) => Some (utf8 (((a * 16 + b) * 16 + c') * 16 + d) t, rest)
                | None => None
                end
            | _, _, _, _ => None
            end
        | String e r' =>
            match unescape e, string_body r' with
            | Some x, Some (t, rest) => Some (String x t, rest)
            | _, _ => None
            end
        | EmptyString => None
        end
      else if (nat_of_ascii c <? 32)%nat then None
      else match string_body r with
           | Some (t, rest) => Some (String c t, rest)
           | None => None
           end
  end.

(** The value of an array index name ([0], [1], ... without leading
    zeros, below 2^32 - 1); such names are enumerated first, in
    ascending order. *)
Definition array_index (k : string) : option Z :=
  match k with
  | String "0" EmptyString => Some 0
  | String "0" _ => None
  | _ => match digits k 0 0 with
         | (_, O, _) => None
         | (n, _, EmptyString) => if n <? 4294967295 then Some n else None
         | (_, _, String _ _) => None
         end
  end.

Definition before (k k' : string) : bool :=
  match array_index k, array_index k' with
  | Some n, Some m => n <? m
  | Some _, None => true
  | None, _ => false
  end.

(** Defining member [k] on an object under construction: a repeated
    name keeps its place and takes the later value. *)
Fixpoint define (ms : list (string * jsval)) (k : string) (v : jsval)
  : list (string * jsval) :=
  match ms with
  | [] => [(k, v)]
  | (k', v') :: r =>
      if String.eqb k k' then (k, v) :: r
      else if before k k' then (k, v) :: ms
      else (k', v') :: define r k v
  end.

Fixpoint value (fuel : nat) (s : string) : option (jsval * string) :=
  match fuel with
  | O => None
  | S f =>
      match skip_ws s with
      | String "[" r =>
          match skip_ws r with
          | String "]" r' => Some (JArr [], r')
          | _ => elements f r []
          end
      | String "{" r =>
          match skip_ws r with
          | String "}" r' => Some (JObj [], r')
          | _ => members f r []
          end
      | s' =>
          match s' with
          | String c r =>
              if Ascii.eqb c dquote then
                match string_body r with
                | Some (t, r') => Some (JStr t, r')
                | None => None
                end
              else if prefix "null" s' then Some (JNull, JsString.drop 4 s')
              else if prefix "true" s' then Some (JBool true, JsString.drop 4 s')
              else if prefix "false" s' then Some (JBool false, JsString.drop 5 s')
              else number s'
          | EmptyString => None
          end
      end
  end
with elements (fuel : nat) (s : string) (acc : list jsval) : option (jsval * string) :=
  match fuel with
  | O => None
  | S f =>
      match value f s with
      | None => None
      | Some (v, r) =>
          match skip_ws r with
          | String "," r' => elements f r' (v :: acc)
          | String "]" r' => Some (JArr (rev (v :: acc)), r')
          | _ => None
          end
      end
  end
with members (fuel : nat) (s : string) (acc : list (string * jsval))
  : option (jsval * string) :=
  match fuel with
  | O => None
  | S f =>
      match skip_ws s with
      | String c r =>
          if Ascii.eqb c dquote then
            match string_body r with
            | None => None
            | Some (k, r1) =>
                match skip_ws r1 with
                | String ":" r2 =>
                    match value f r2 with
                    | None => None
                    | Some (v, r3) =>
                        match skip_ws r3 with
                        | String "," r' => members f r' (define acc k v)
                        | String "}" r' => Some (JObj (define acc k v), r')
                        | _ => None
                        end
                    end
                | _ => None
                end
            end
          else None
      | EmptyString => None
      end
  end.

(** [JSON.parse(text)].  Every recursive call of the reader is on a
    strictly shorter text or one step after such a call, so twice the
    length of the text plus two is fuel enough. *)
Definition parse (text : string) : exn + jsval :=
  match value (2 * String.length text + 2) text with
  | Some (v, r) =>
      match skip_ws r with
      | EmptyString => inr v
      | _ => inl (SyntaxError "Unexpected non-whitespace character after JSON")
      end
  | None => inl (SyntaxError "Unexpected token or end of JSON input")
  end.

End Json.


(** Texts that hold double quotes are written with single quotes and
    converted: [quoted] turns every single quote into a double quote. *)
Fixpoint quoted (s : string) : string :=
  match s with
  | EmptyString => EmptyString
  | String c r => String (if Ascii.eqb c "'" then Json.dquote else c) (quoted r)
  end.

(** ** The worker's surroundings *)

(** A multipart form field: a file read from disk, or a JSON value
    passed through [JSON.stringify]. *)
Inductive FormField : Type :=
| FileStream (path : string)
| Stringified (v : jsval).

Inductive RequestBody : Type :=
| JsonBody (v : jsval)
| FormBody (fields : list (string * FormField)).

(** An axios request configuration.  A header whose value is
    [undefined] is [None]. *)
Record Request : Type := mkRequest {
  method : string;
  url : string;
  request_headers : list (string * option string);
  body : RequestBody
}.

(** What the transport does with a request. *)
Inductive NetOutcome : Type :=
| Reply (r : HttpResponse)
| NoReply.

(** An item of an XMP sequence, and the tree handed to [serializeXmp].
    The serializer is external: the written document is represented by
    the tree it is given. *)
Inductive XmpItem : Type :=
| XmpText (s : string)
| XmpStruct (fields : list (string * jsval)).

Definition XmpTree : Type := list (string * list XmpItem).

(** Everything outside the worker: the file system's answer to
    [fs.stat] (the size, or nothing when the file is missing), the
    transport, the [WORKER_TEST_MODE] environment variable and the
    boundary [form-data] picks for an outgoing form. *)
Record Platform : Type := mkPlatform {
  fs_stat : string -> option Z;
  http : Request -> NetOutcome;
  WORKER_TEST_MODE : bool;
  form_boundary : string
}.

Record Source : Type := mkSource {
  source_path : string;
  source_url : option string
}.

Record Rendition : Type := mkRendition {
  rendition_path : string;
  instructions : list (string * string)
}.

(** The observable effects of an invocation, oldest first. *)
Record world : Type := mkWorld {
  requests : list Request;
  files : list (string * XmpTree)
}.

Definition initial : world := mkWorld [] [].

(** ** The monad of worker code *)

Definition M (A : Type) : Type := world -> (exn + A) * world.

Definition ret {A : Type} (a : A) : M A := fun w => (inr a, w).

Definition throw {A : Type} (e : exn) : M A := fun w => (inl e, w).

Definition bind {A B : Type} (m : M A) (k : A -> M B) : M B :=
  fun w =>
    match m w with
    | (inr a, w') => k a w'
    | (inl e, w') => (inl e, w')
    end.

(** [try { m } catch (error) { handler }]. *)
Definition try_catch {A : Type} (m : M A) (handler : exn -> M A) : M A :=
  fun w =>
    match m w with
    | (inr a, w') => (inr a, w')
    | (inl e, w') => handler e w'
    end.

(** A pure computation that may throw. *)
Definition lift {A : Type} (r : exn + A) : M A := fun w => (r, w).

Declare Scope worker_scope.
Delimit Scope worker_scope with worker.
Notation "x <- m ;; k" := (bind m (fun x => k))
  (at level 61, m at next level, right associativity) : worker_scope.
Notation "m ;;; k" := (bind m (fun _ => k))
  (at level 61, right associativity) : worker_scope.

(** The same sequencing for pure code that may throw. *)
Definition and_then {A B : Type} (r : exn + A) (k : A -> exn + B) : exn + B :=
  match r with
  | inr a => k a
  | inl e => inl e
  end.

Notation "'let?' x := r 'in' k" := (and_then r (fun x => k))
  (at level 10, x name, r at level 100, k at level 200).

Local Open Scope worker_scope.

(** [await fs.stat(path)], reduced to the size. *)
Definition stat (P : Platform) (path : string) : M Z :=
  match fs_stat P path with
  | Some size => ret size
  | None => throw (FsError "ENOENT: no such file or directory")
  end.

(** [await axios(config)]: one request is issued; with the default
    [validateStatus] a reply settles the promise as fulfilled exactly
    when its status is in the 2xx range. *)
Definition axios (P : Platform) (config : Request) : M HttpResponse :=
  fun w =>
    let w' := mkWorld (requests w ++ [config]) (files w) in
    match http P config with
    | Reply r =>
        if (200 <=? status r) && (status r <? 300)
        then (inr r, w')
        else (inl (AxiosError (Some r)), w')
    | NoReply => (inl (AxiosError None), w')
    end.

(** [await fs.writeFile(path, serializeXmp(tree, ...))]. *)
Definition writeFile (path : string) (tree : XmpTree) : M unit :=
  fun w => (inr tt, mkWorld (requests w) (files w ++ [(path, tree)])).

(** [rendition.instructions.NAME]. *)
Definition instruction (rendition : Rendition) (name : string) : option string :=
  Js.lookup name (instructions rendition).

(** [error.response] of a caught value. *)
Definition response_of (error : exn) : option HttpResponse :=
  match error with
  | AxiosError r => r
  | _ => None
  end.

Definition CRLF : string := String (Json.byte 13) (String (Json.byte 10) EmptyString).

(** ** parse-multipart *)

Module multipart.

(** The first [;]-separated item of the header that mentions
    [boundary], cut at [=]: the text after the first [=], up to the
    next one. *)
Fixpoint boundary_item (items : list string) : string :=
  match items with
  | [] => EmptyString
  | it :: rest =>
      let item := JsString.trim it in
      if 0 <=? JsString.indexOf item "boundary"
      then JsString.trim (JsString.template (nth_error (JsString.split item "=") 1))
      else boundary_item rest
  end.

(** [multipart.getBoundary(header)]; a missing header is [undefined],
    whose [split] cannot be read. *)
Definition getBoundary (header : option string) : exn + string :=
  match header with
  | None => inl (TypeError "Cannot read properties of undefined (reading 'split')")
  | Some h => inr (boundary_item (JsString.split h ";"))
  end.

End multipart.

(** ** worker-ccai-colorextract.js *)

Module ColorExtract.

Definition DEFAULT_ANALYZER_ID : string :=
  "Feature:cintel-image-classifier:Service-60887e328ded447d86e01122a4f19c58".

Definition DEFAULT_CCAI_ENDPOINT : string :=
  "https://sensei-stage-va6.adobe.io/services/v2/predict".

(** The [Color] typedef.  The fields hold whatever the service sent. *)
Record Color : Type := mkColor {
  name : string;
  percentage : jsval;
  red : jsval;
  green : jsval;
  blue : jsval
}.

(** The text searched for in each part. *)
Definition RESULT_DISPOSITION : string :=
  quoted "Content-Disposition: form-data; name='result'".

(** The loop over [responseJson[0].colors], given the (name, value)
    pairs it visits; [colors] is the array pushed to. *)
Fixpoint pushColors (entries : list (string * jsval)) (colors : list Color)
  : exn + list Color :=
  match entries with
  | [] => inr colors
  | (name, color) :: rest =>
      let? coverage := Js.get color "coverage" in
      let? rgb := Js.get color "rgb" in
      let? r := Js.get rgb "red" in
      let? g := Js.get rgb "green" in
      let? b := Js.get rgb "blue" in
      pushColors rest (colors ++ [mkColor name coverage r g b])
  end.

(** The colours of a parsed result: [responseJson[0].colors] is
    enumerated and every entry pushed. *)
Definition colorsOf (responseJson : jsval) (colors : list Color) : exn + list Color :=
  let? first := Js.get0 responseJson in
  let? table := Js.get first "colors" in
  pushColors (Js.enumerate table) colors.

(** The body of the [if] on the disposition text: the fifth line of
    the part is parsed and its colours are pushed. *)
Definition readResult (part : string) (colors : list Color) : exn + list Color :=
  let subParts := JsString.split part CRLF in
  let? responseJson := Json.parse (JsString.template (nth_error subParts 4)) in
  colorsOf responseJson colors.

(** The loop over the parts; it stops at the first part that holds
    the disposition text after its first character. *)
Fixpoint scanParts (parts : list string) (colors : list Color) : exn + list Color :=
  match parts with
  | [] => inr colors
  | part :: rest =>
      if 0 <? JsString.indexOf part RESULT_DISPOSITION
      then readResult part colors
      else scanParts rest colors
  end.

(** [body.split(sep)] on a body that may not be a string. *)
Definition split_body (body : jsval) (sep : string) : exn + list string :=
  match body with
  | JStr s => inr (JsString.split s sep)
  | JUndef | JNull => inl (TypeError "Cannot read properties of undefined (reading 'split')")
  | _ => inl (TypeError "body.split is not a function")
  end.

Definition parseColors (response : HttpResponse) : exn + list Color :=
  let colors := [] in
  if status response =? 200 then
    let body := data response in
    let? boundary :=
      multipart.getBoundary (Js.lookup "content-type" (headers response)) in
    let? parts := split_body body ("--" ++ boundary) in
    scanParts parts colors
  else inr colors.

(** The comparator of [sortColors]: [b.percentage - a.percentage],
    a NaN difference counting as zero. *)
Definition compareColors (a b : Color) : Q :=
  match Js.sub (percentage b) (percentage a) with
  | Some d => d
  | None => 0%Q
  end.

(** Insertion of [a] in front of the first element it does not have
    to follow. *)
Fixpoint insertColor (a : Color) (sorted : list Color) : list Color :=
  match sorted with
  | [] => [a]
  | b :: rest =>
      if Qle_bool (compareColors a b) 0 then a :: sorted
      else b :: insertColor a rest
  end.

(** [colors.sort(cmp)]: [Array.prototype.sort] is stable; it is
    modelled by the stable insertion sort.  The array is local to
    [main], so the sort in place is the sorted list. *)
Fixpoint sortColors (colors : list Color) : list Color :=
  match colors with
  | [] => []
  | a :: rest => insertColor a (sortColors rest)
  end.

(** The product is taken exactly, where JavaScript rounds it to a
    binary64 number before [Math.round]; the two differ on products
    that fall just beside a half. *)
Definition toPercentageString (color : Color) : string :=
  match Js.ToNumber (percentage color) with
  | Some p => JsString.of_Z (Js.Math_round (p * 100)) ++ "%"
  | None => "NaN%"
  end.

(** The byte [Buffer.from] stores for an array element that is a
    number, [null], a boolean or [undefined]: the number, truncated to
    an integer, modulo 256; NaN is stored as 0.  Other elements are
    outside the model, as for [Js.ToNumber]. *)
Definition toUint8 (v : jsval) : Z :=
  match Js.ToNumber v with
  | Some q => (Z.quot (Qnum q) (Z.pos (Qden q))) mod 256
  | None => 0
  end.

Definition hexDigit (n : Z) : ascii :=
  match String.get (Z.to_nat n) "0123456789abcdef" with
  | Some c => c
  | None => "0"%char
  end.

(** [Buffer.from(bytes).toString('hex')]. *)
Fixpoint toHex (bytes : list Z) : string :=
  match bytes with
  | [] => EmptyString
  | b :: rest => String (hexDigit (b / 16)) (String (hexDigit (b mod 16)) (toHex rest))
  end.

Definition toWebColor (color : Color) : string :=
  let arr := [red color; green color; blue color] in
  "#" ++ toHex (map toUint8 arr).

(** The three projections handed to [serializeXmp]. *)
Definition colorNames (colors : list Color) : list XmpItem :=
  map (fun color => XmpText (name color ++ ", " ++ toPercentageString color)) colors.

Definition colorRGB (colors : list Color) : list XmpItem :=
  map (fun color => XmpText (toWebColor color ++ ", " ++ toPercentageString color)) colors.

Definition colorStructs (colors : list Color) : list XmpItem :=
  map (fun color =>
         XmpStruct [("ccai:name", JStr (name color));
                    ("ccai:percentage", percentage color);
                    ("ccai:red", red color);
                    ("ccai:green", green color);
                    ("ccai:blue", blue color)]) colors.

Definition xmpOf (colors : list Color) : XmpTree :=
  [("ccai:colorNames", colorNames colors);
   ("ccai:colorRGB", colorRGB colors);
   ("ccai:colors", colorStructs colors)].

(** The [contentAnalyzerRequests] parameters. *)
Definition parameters (analyzer_id : string) : jsval :=
  JObj [("sensei:name", JStr analyzer_id);
        ("sensei:invocation_mode", JStr "synchronous");
        ("sensei:invocation_batch", JBool false);
        ("sensei:engines",
         JArr [JObj [("sensei:execution_info",
                      JObj [("sensei:engine", JStr analyzer_id)]);
                     ("sensei:inputs",
                      JObj [("documents",
                             JArr [JObj [("sensei:multipart_field_name", JStr "infile");
                                         ("dc:format", JStr "image/jpg")]])]);
                     ("sensei:params",
                      JObj [("application-id", JStr "1234");
                            ("enable_mask", JNum 0)]);
                     ("sensei:outputs",
                      JObj [("result",
                             JObj [("sensei:multipart_field_name", JStr "result");
                                   ("dc:format", JStr "application/json")])])]])].

(** The [SENSEI_PARAMS] branch: the instruction is parsed, then the
    assignment to the constant [parameters] throws. *)
Definition overrideParameters (rendition : Rendition) : M unit :=
  match instruction rendition "SENSEI_PARAMS" with
  | None | Some EmptyString => ret tt
  | Some text =>
      _ <- lift (Json.parse text) ;;
      throw (TypeError "Assignment to constant variable.")
  end.

(** [Object.assign({...}, formData.getHeaders())]: the form's own
    content type replaces the literal one. *)
Definition requestHeaders (P : Platform) (accessToken clientId : option string)
  : list (string * option string) :=
  [("Authorization", Some ("Bearer " ++ JsString.template accessToken));
   ("cache-control", Some "no-cache,no-cache");
   ("Content-Type", Some "multipart/form-data");
   ("x-api-key", clientId);
   ("Prefer", Some "respond-async, wait=59");
   ("content-type", Some ("multipart/form-data; boundary=" ++ form_boundary P))].

(** The request [main] builds: endpoint and analyzer from the
    instructions, the form with the file and the parameters, the
    credentials. *)
Definition request (P : Platform) (source : Source) (rendition : Rendition) : Request :=
  let analyzer_id :=
    JsString.or_default (instruction rendition "ANALYZER_ID") DEFAULT_ANALYZER_ID in
  let endpoint :=
    JsString.or_default (instruction rendition "CCAI_ENDPOINT") DEFAULT_CCAI_ENDPOINT in
  let formData :=
    [("infile", FileStream (source_path source));
     ("contentAnalyzerRequests", Stringified (parameters analyzer_id))] in
  let accessToken :=
    if WORKER_TEST_MODE P then Some "test-access-token"
    else instruction rendition "stageToken" in
  let clientId :=
    if WORKER_TEST_MODE P then Some "test-client-id"
    else instruction rendition "stageApiKey" in
  mkRequest "post" endpoint (requestHeaders P accessToken clientId) (FormBody formData).

Definition main (P : Platform) (source : Source) (rendition : Rendition) : M unit :=
  size <- stat P (source_path source) ;;
  if size =? 0 then throw (SourceCorruptError "source file is empty")
  else
    overrideParameters rendition ;;;
    response <- axios P (request P source rendition) ;;
    colors <- lift (parseColors response) ;;
    let colors := sortColors colors in
    writeFile (rendition_path rendition) (xmpOf colors).

End ColorExtract.

(** ** The custom-classifier tag worker *)

Module CustomTags.

Definition DEFAULT_CLASSIFIER_IDS : string := "10021,10023".

Definition DEFAULT_CCAI_ENDPOINT : string :=
  "https://ccai-tagging-stage-va7.adobe.io/custom/images/v0/classifiers/CLASSIFIER_ID/predict_tags".

(** What building the first log line of the handler does to a reply:
    [error.response.data.message] is read, which throws when the data
    is [null] or [undefined], and [data.message || data] is converted
    to text for the template literal, which throws for an object that
    cannot be converted. *)
Definition logged (r : HttpResponse) : exn + unit :=
  let? message := Js.get (data r) "message" in
  Js.checkToString (if Js.truthy message then message else data r).

(** The two [console.log] lines of the handler.  Console output is not
    recorded; what is kept is whether building the lines throws.  The
    second line reads a header, which is a string or [undefined]. *)
Definition logFailure (error : exn) : M unit :=
  match response_of error with
  | Some r => _ <- lift (logged r) ;; ret tt
  | None => ret tt
  end.

(** The message of the error thrown by the handler. *)
Definition failureMessage (error : exn) : string :=
  "Failed getting custom tags: "
  ++ match response_of error with
     | Some r => JsString.of_Z (status r)
     | None => "undefined"
     end
  ++ " "
  ++ match response_of error with
     | Some r => statusText r
     | None => "undefined"
     end.

(** The axios configuration of one classifier call. *)
Definition config (endpoint classifierId : string)
  (headers : list (string * option string)) (data_ : jsval) : Request :=
  let classifierEndpoint := JsString.replace endpoint "CLASSIFIER_ID" classifierId in
  mkRequest "post" classifierEndpoint headers (JsonBody data_).

(** [response.data.result[0].tags]. *)
Definition tagsOf (response : HttpResponse) : exn + jsval :=
  let? result := Js.get (data response) "result" in
  let? first := Js.get0 result in
  Js.get first "tags".

Definition callClassifier (P : Platform) (endpoint classifierId : string)
  (headers : list (string * option string)) (data_ : jsval) : M jsval :=
  try_catch
    (response <- axios P (config endpoint classifierId headers data_) ;;
     lift (tagsOf response))
    (fun error =>
       logFailure error ;;;
       throw (Error (failureMessage error))).

(** [allTags.concat(tags)]: an array is spread, any other value is
    appended as one element. *)
Definition concat (allTags : list jsval) (tags : jsval) : list jsval :=
  match tags with
  | JArr items => allTags ++ items
  | other => allTags ++ [other]
  end.

(** The [for (const idx in classifier_ids)] loop. *)
Fixpoint collectTags (P : Platform) (endpoint : string)
  (headers : list (string * option string)) (data_ : jsval)
  (classifier_ids : list string) (allTags : list jsval) : M (list jsval) :=
  match classifier_ids with
  | [] => ret allTags
  | id :: rest =>
      tags <- callClassifier P endpoint id headers data_ ;;
      collectTags P endpoint headers data_ rest (concat allTags tags)
  end.

(** [allTags.map(t => ({ 'ccai:name': t.tag, 'ccai:percentage': t.confidence }))]. *)
Fixpoint labels (allTags : list jsval) : exn + list XmpItem :=
  match allTags with
  | [] => inr []
  | t :: rest =>
      let? tag := Js.get t "tag" in
      let? confidence := Js.get t "confidence" in
      let? others := labels rest in
      inr (XmpStruct [("ccai:name", tag); ("ccai:percentage", confidence)] :: others)
  end.

Definition requestHeaders (P : Platform) (rendition : Rendition)
  : list (string * option string) :=
  let accessToken :=
    if WORKER_TEST_MODE P then Some "test-access-token"
    else instruction rendition "STAGE_TOKEN" in
  let clientId :=
    if WORKER_TEST_MODE P then Some "test-client-id"
    else instruction rendition "STAGE_API_KEY" in
  let imsOrgId :=
    if WORKER_TEST_MODE P then Some "test-ims-org-id"
    else instruction rendition "STAGE_IMS_ORG" in
  [("x-gw-ims-org-id", imsOrgId);
   ("x-api-key", clientId);
   ("Authorization", Some ("Bearer " ++ JsString.template accessToken));
   ("Content-Type", Some "application/json");
   ("cache-control", Some "no-cache,no-cache")].

Definition requestData (source : Source) : jsval :=
  JObj [("threshold", JNum 0);
        ("top_n", JNum 3);
        ("assets",
         JArr [JObj [("type", JStr "url");
                     ("asset", match source_url source with
                               | Some u => JStr u
                               | None => JUndef
                               end)]])].

Definition classifier_ids (rendition : Rendition) : list string :=
  JsString.split
    (JsString.or_default (instruction rendition "CLASSIFIER_IDS") DEFAULT_CLASSIFIER_IDS)
    ",".

Definition endpoint (rendition : Rendition) : string :=
  JsString.or_default (instruction rendition "CCAI_ENDPOINT") DEFAULT_CCAI_ENDPOINT.

Definition main (P : Platform) (source : Source) (rendition : Rendition) : M unit :=
  size <- stat P (source_path source) ;;
  if size =? 0 then throw (SourceCorruptError "source file is empty")
  else
    let headers := requestHeaders P rendition in
    let data_ := requestData source in
    allTags <- collectTags P (endpoint rendition) headers data_ (classifier_ids rendition) [] ;;
    items <- lift (labels allTags) ;;
    writeFile (rendition_path rendition) [("ccai:labels", items)].

End CustomTags.

(** ** Vocabulary of the properties *)

Module Spec.

Import ColorExtract.

(** The parts [parseColors] looks at: the body cut at the delimiter
    made from the boundary of the content type [ct]. *)
Definition partsOf (ct body : string) : list string :=
  JsString.split body ("--" ++ multipart.boundary_item (JsString.split ct ";")).

(** A part is taken for the result when the disposition text occurs
    in it after its first character. *)
Definition namesResult (part : string) : Prop :=
  0 < JsString.indexOf part RESULT_DISPOSITION.

(** The coverage of a colour as a number, when it is one. *)
Definition coverage (c : Color) : option Q := Js.ToNumber (percentage c).

Definition numeric (c : Color) : Prop := exists x, coverage c = Some x.

(** [a] may stand before [b] in a list ordered from high to low
    coverage. *)
Definition descending (a b : Color) : Prop :=
  exists x y, coverage a = Some x /\ coverage b = Some y /\ (y <= x)%Q.





(** The value of a lower-case hexadecimal digit. *)
Definition lowerHexValue (c : ascii) : option Z :=
  let n := Z.of_nat (nat_of_ascii c) in
  if (48 <=? n) && (n <=? 57) then Some (n - 48)
  else if (97 <=? n) && (n <=? 102) then Some (n - 87)
  else None.

Definition pairValue (hi lo : ascii) : option Z :=
  match lowerHexValue hi, lowerHexValue lo with
  | Some h, Some l => Some (16 * h + l)
  | _, _ => None
  end.

(** Reads a web colour: a hash sign, then exactly six lower-case
    hexadecimal digits, two for each of red, green and blue. *)
Definition readWebColor (s : string) : option (Z * Z * Z) :=
  match s with
  | String "#" (String r1 (String r2 (String g1 (String g2
      (String b1 (String b2 EmptyString)))))) =>
      match pairValue r1 r2, pairValue g1 g2, pairValue b1 b2 with
      | Some r, Some g, Some b => Some (r, g, b)
      | _, _, _ => None
      end
  | _ => None
  end.

(** A decoded colour entry [name: { coverage, rgb: { red, green, blue } }]
    and the feature that carries the same five values. *)
Definition colorEntry (e : string * jsval * jsval * jsval * jsval) : string * jsval :=
  let '(n, c, r, g, b) := e in
  (n, JObj [("coverage", c); ("rgb", JObj [("red", r); ("green", g); ("blue", b)])]).

Definition colorFeature (e : string * jsval * jsval * jsval * jsval) : Color :=
  let '(n, c, r, g, b) := e in mkColor n c r g b.

(** The decoded record [[{ colors: { ... } }]] with the given entries. *)
Definition colorRecord (entries : list (string * jsval * jsval * jsval * jsval)) : jsval :=
  JArr [JObj [("colors", JObj (map colorEntry entries))]].

(** A tag as a classifier returns it, and the label written for it. *)
Definition tagValue (t : string * Q) : jsval :=
  JObj [("tag", JStr (fst t)); ("confidence", JNum (snd t))].

Definition labelItem (t : string * Q) : XmpItem :=
  XmpStruct [("ccai:name", JStr (fst t)); ("ccai:percentage", JNum (snd t))].

(** The confidences of a list of tags go from high to low. *)
Definition confidencesDescend (tags : list (string * Q)) : Prop :=
  StronglySorted (fun a b => (snd b <= snd a)%Q) tags.

End Spec.

(** ** Sample responses and platforms *)

Module Samples.

Definition COLORS_JSON : string :=
  quoted "[{'colors':{'red':{'coverage':0.6,'rgb':{'red':200,'green':10,'blue':10}}}}]".

(** One part of a multipart body, after its boundary line: the header
    lines, a blank line, the content. *)
Definition part (header_lines : list string) (content : string) : string :=
  CRLF ++ String.concat CRLF header_lines ++ CRLF ++ CRLF ++ content ++ CRLF.

(** A multipart body: every part behind the delimiter, then the
    closing delimiter. *)
Definition multipart_body (boundary : string) (parts : list string) : string :=
  String.concat EmptyString (map (fun p => "--" ++ boundary ++ p) parts)
  ++ "--" ++ boundary ++ "--" ++ CRLF.

Definition multipart_response (code : Z) (parts : list string) : HttpResponse :=
  mkResponse code "OK"
    [("content-type", "multipart/form-data; boundary=Boundary_7")]
    (JStr (multipart_body "Boundary_7" parts)).

Definition status_part : string :=
  part [quoted "Content-Disposition: form-data; name='contentAnalyzerResponse'";
        "Content-Type: application/json"]
       (quoted "{'statuses':[{'status':'200'}]}").

(** The result part as the service sends it: two header lines. *)
Definition result_part (json : string) : string :=
  part [quoted "Content-Disposition: form-data; name='result'";
        "Content-Type: application/json"] json.

(** A result part that carries the disposition header only. *)
Definition bare_result_part (json : string) : string :=
  part [quoted "Content-Disposition: form-data; name='result'"] json.

Definition service_response : HttpResponse :=
  multipart_response 200 [status_part; result_part COLORS_JSON].

Definition bare_response : HttpResponse :=
  multipart_response 200 [status_part; bare_result_part COLORS_JSON].

Definition no_result_response : HttpResponse :=
  multipart_response 200 [status_part].

Definition out_of_range_response : HttpResponse :=
  multipart_response 200
    [result_part
       (quoted "[{'colors':{'red':{'coverage':1.5,'rgb':{'red':300,'green':10,'blue':-1}}}}]")].

Definition source : Source := mkSource "/in/asset.jpg" (Some "https://example.com/asset.jpg").

Definition rendition : Rendition := mkRendition "/out/rendition.xmp" [].

(** A platform that holds a non-empty asset and answers every request
    with [r]. *)
Definition answering (r : HttpResponse) : Platform :=
  mkPlatform (fun _ => Some 1024) (fun _ => Reply r) false "form-boundary".

(** A platform whose asset is empty. *)
Definition empty_asset : Platform :=
  mkPlatform (fun _ => Some 0) (fun _ => NoReply) false "form-boundary".

Definition tags_reply (tags : list (string * Q)) : HttpResponse :=
  mkResponse 200 "OK" [("content-type", "application/json")]
    (JObj [("result",
            JArr [JObj [("tags",
                         JArr (map Spec.tagValue tags))]])]).

Definition failure_reply : HttpResponse :=
  mkResponse 500 "Internal Server Error" [("x-request-id", "req-1")]
    (JObj [("message", JStr "classifier unavailable")]).

Definition url_of (id : string) : string :=
  JsString.replace CustomTags.DEFAULT_CCAI_ENDPOINT "CLASSIFIER_ID" id.

(** Classifier 10021 answers [first], every other classifier answers
    [second]. *)
Definition two_classifiers (first second : HttpResponse) : Platform :=
  mkPlatform (fun _ => Some 1024)
    (fun req => if String.eqb (url req) (url_of "10021") then Reply first else Reply second)
    false "form-boundary".

End Samples.

(** ** The human-classifier draft: parseTags *)

Module HumanClassifier.

(** The [Tag] typedef; the fields hold what [parseTags] stores. *)
Record Tag : Type := mkTag {
  name : jsval;
  percentage : jsval
}.

(** The loop [for (const tag in response.result[0].tags)]: [tag] is
    bound to the property names, which are strings, and the pushed
    object reads [tag.tag] and [tag.confidence] from that string. *)
Fixpoint pushTags (entries : list (string * jsval)) (tags : list Tag) : exn + list Tag :=
  match entries with
  | [] => inr tags
  | (tag, _) :: rest =>
      let? n := Js.get (JStr tag) "tag" in
      let? p := Js.get (JStr tag) "confidence" in
      pushTags rest (tags ++ [mkTag n p])
  end.

Definition parseTags (response : jsval) : exn + list Tag :=
  let tags := [] in
  let? result := Js.get response "result" in
  if Js.truthy result then
    let? first := Js.get0 result in
    let? table := Js.get first "tags" in
    pushTags (Js.enumerate table) tags
  else inr tags.

End HumanClassifier.

(** ** Further vocabulary and samples *)

Module Shape.

Import ColorExtract.

(** The colour has coverage [x]. *)
Definition hasCoverage (x : Q) (c : Color) : bool :=
  match Spec.coverage c with
  | Some y => Qeq_bool y x
  | None => false
  end.

(** The reply has a status axios accepts. *)
Definition accepted (r : HttpResponse) : Prop := 200 <= status r < 300.

(** The classifier [id] is answered with a 2xx reply whose
    [result[0].tags] reads as [tags]. *)
Definition answers (P : Platform) (source : Source) (rendition : Rendition)
  (id : string) (tags : jsval) : Prop :=
  exists r,
    http P (CustomTags.config (CustomTags.endpoint rendition) id
              (CustomTags.requestHeaders P rendition) (CustomTags.requestData source))
    = Reply r
    /\ accepted r
    /\ CustomTags.tagsOf r = inr tags.

(** The requests the tag worker issues for a list of ids. *)
Definition calls (P : Platform) (source : Source) (rendition : Rendition)
  (ids : list string) : list Request :=
  map (fun id =>
         CustomTags.config (CustomTags.endpoint rendition) id
           (CustomTags.requestHeaders P rendition) (CustomTags.requestData source))
      ids.

(** A multipart response with two result parts, the first holding
    [first] and the second [second]. *)
Definition two_results (first second : string) : HttpResponse :=
  Samples.multipart_response 200
    [Samples.status_part; Samples.result_part first; Samples.result_part second].

Definition GREEN_JSON : string :=
  quoted "[{'colors':{'green':{'coverage':0.25,'rgb':{'red':0,'green':128,'blue':0}}}}]".

(** A value [Js.ToNumber] converts as JavaScript does: a number,
    [null], a boolean or [undefined]. *)
Definition plain (v : jsval) : Prop :=
  match v with
  | JNum _ | JNull | JBool _ | JUndef => True
  | JStr _ | JArr _ | JObj _ => False
  end.

(** A part named [log] whose content is the disposition text of a
    result part, and a response that holds it and no result part. *)
Definition log_part : string :=
  Samples.part [quoted "Content-Disposition: form-data; name='log'";
                "Content-Type: text/plain"]
               ColorExtract.RESULT_DISPOSITION.

Definition log_response : HttpResponse :=
  Samples.multipart_response 200 [Samples.status_part; log_part].

(** A rendition that names three classifiers. *)
Definition three_ids : Rendition :=
  mkRendition "/out/rendition.xmp" [("CLASSIFIER_IDS", "10021,10023,10025")].

End Shape.

(** * Properties *)

(** ** Checks of the JavaScript model *)

Example split_on_delimiter :
  JsString.split "a--b----c--" "--" = ["a"; "b"; EmptyString; "c"; EmptyString].
Proof. reflexivity. Qed.

Example split_without_delimiter : JsString.split "abc" "--" = ["abc"].
Proof. reflexivity. Qed.

Example split_empty_text : JsString.split EmptyString "," = [EmptyString].
Proof. reflexivity. Qed.

Example split_default_ids : JsString.split "10021,10023" "," = ["10021"; "10023"].
Proof. reflexivity. Qed.

Example replace_first_only :
  JsString.replace "x/CLASSIFIER_ID/y/CLASSIFIER_ID" "CLASSIFIER_ID" "10021"
  = "x/10021/y/CLASSIFIER_ID".
Proof. reflexivity. Qed.

Example integers_as_text :
  (JsString.of_Z 500, JsString.of_Z 0, JsString.of_Z (-7)) = ("500", "0", "-7").
Proof. reflexivity. Qed.

Example trim_both_ends : JsString.trim "  boundary=abc  " = "boundary=abc".
Proof. reflexivity. Qed.

Example boundary_of_content_type :
  multipart.getBoundary (Some "multipart/form-data; boundary=Boundary_7")
  = inr "Boundary_7".
Proof. reflexivity. Qed.

Example boundary_without_header :
  exists e, multipart.getBoundary None = inl e.
Proof. eexists. reflexivity. Qed.

Example parse_colors_text :
  Json.parse Samples.COLORS_JSON
  = inr (Spec.colorRecord [("red", JNum (6 # 10), JNum 200, JNum 10, JNum 10)]).
Proof. vm_compute. reflexivity. Qed.

Example parse_member_order :
  Json.parse (quoted "{'b': 1, '1': [true, null], 'b': -2.5e1, '0': 'x'}")
  = inr (JObj [("0", JStr "x"); ("1", JArr [JBool true; JNull]); ("b", JNum (-25 # 1))]).
Proof. vm_compute. reflexivity. Qed.

Example parse_rejects :
  (Json.parse EmptyString, Json.parse "[1,]", Json.parse "undefined")
  = (inl (SyntaxError "Unexpected token or end of JSON input"),
     inl (SyntaxError "Unexpected token or end of JSON input"),
     inl (SyntaxError "Unexpected token or end of JSON input")).
Proof. vm_compute. reflexivity. Qed.

Example percentage_strings :
  map (fun p => ColorExtract.toPercentageString
                  (ColorExtract.mkColor "c" (JNum p) (JNum 0) (JNum 0) (JNum 0)))
      [595 # 1000; 4 # 1000; 6 # 10; 1 # 1]
  = ["60%"; "0%"; "60%"; "100%"].
Proof. vm_compute. reflexivity. Qed.

Example service_response_document :
  files (snd (ColorExtract.main (Samples.answering Samples.service_response)
                Samples.source Samples.rendition initial))
  = [("/out/rendition.xmp",
      [("ccai:colorNames", [XmpText "red, 60%"]);
       ("ccai:colorRGB", [XmpText "#c80a0a, 60%"]);
       ("ccai:colors",
        [XmpStruct [("ccai:name", JStr "red");
                    ("ccai:percentage", JNum (6 # 10));
                    ("ccai:red", JNum 200);
                    ("ccai:green", JNum 10);
                    ("ccai:blue", JNum 10)]])])].
Proof. vm_compute. reflexivity. Qed.

Example sensei_params_always_throw :
  ColorExtract.main (Samples.answering Samples.service_response) Samples.source
    (mkRendition "/out/rendition.xmp" [("SENSEI_PARAMS", "{}")]) initial
  = (inl (TypeError "Assignment to constant variable."), initial).
Proof. vm_compute. reflexivity. Qed.

Example replacement_patterns :
  (JsString.replace "a/ID/b" "ID" "$$7", JsString.replace "a/ID/b" "ID" "[$&]",
   JsString.replace "a/ID/b" "ID" "$1", JsString.replace "a/b" "ID" "7")
  = ("a/$7/b", "a/[ID]/b", "a/$1/b", "a/b").
Proof. reflexivity. Qed.

Example unconvertible_error_body :
  fst (CustomTags.callClassifier
         (Samples.answering (mkResponse 500 "Internal Server Error" []
                               (JObj [("toString", JNum 1)])))
         CustomTags.DEFAULT_CCAI_ENDPOINT "10021" [] JNull initial)
  = inl (TypeError "Cannot convert object to primitive value").
Proof. vm_compute. reflexivity. Qed.

(** ** Running the colour worker *)

Section ColorRun.

Import ColorExtract.

Variables (P : Platform) (source : Source) (rendition : Rendition).

(** Once the asset is known to be non-empty, no [SENSEI_PARAMS]
    instruction is given and the service answers with a 2xx reply the
    parser accepts, the worker issues its one request and writes the
    projections of the sorted colours. *)
Lemma main_after_reply (w : world) (size : Z) (r : HttpResponse) (colors : list Color) :
  fs_stat P (source_path source) = Some size ->
  size <> 0 ->
  instruction rendition "SENSEI_PARAMS" = None ->
  http P (request P source rendition) = Reply r ->
  200 <= status r < 300 ->
  parseColors r = inr colors ->
  main P source rendition w
  = (inr tt,
     mkWorld (requests w ++ [request P source rendition])
             (files w ++ [(rendition_path rendition, xmpOf (sortColors colors))])).
Proof.
  intros Hstat Hsize Hparams Hhttp Hok Hparse.
  unfold main, bind, stat. rewrite Hstat. unfold ret.
  apply Z.eqb_neq in Hsize. rewrite Hsize.
  unfold overrideParameters. rewrite Hparams. unfold ret, axios.
  rewrite Hhttp.
  assert (Hrange : (200 <=? status r) && (status r <? 300) = true).
  { apply andb_true_iff. split; [apply Z.leb_le | apply Z.ltb_lt]; lia. }
  rewrite Hrange. unfold lift. rewrite Hparse. reflexivity.
Qed.

(** An empty asset stops the worker at once. *)
Lemma main_empty_source (w : world) :
  fs_stat P (source_path source) = Some 0 ->
  main P source rendition w = (inl (SourceCorruptError "source file is empty"), w).
Proof.
  intros Hstat. unfold main, bind, stat. rewrite Hstat. reflexivity.
Qed.

End ColorRun.

(** ** The colour parser on responses without a result *)

Section ParseColors.

Import ColorExtract.

Lemma scanParts_no_result (parts : list string) (colors : list Color) :
  (forall part, In part parts -> JsString.indexOf part RESULT_DISPOSITION <= 0) ->
  scanParts parts colors = inr colors.
Proof.
  induction parts as [| part rest IH]; intros Hnone; simpl.
  - reflexivity.
  - assert (Hpart : JsString.indexOf part RESULT_DISPOSITION <= 0)
      by (apply Hnone; left; reflexivity).
    apply Z.ltb_ge in Hpart. rewrite Hpart.
    apply IH. intros p Hp. apply Hnone. right. exact Hp.
Qed.

Lemma parseColors_not_200 (response : HttpResponse) :
  status response <> 200 -> parseColors response = inr [].
Proof.
  intros Hstatus. unfold parseColors.
  apply Z.eqb_neq in Hstatus. rewrite Hstatus. reflexivity.
Qed.

Lemma parseColors_200 (response : HttpResponse) (ct body : string) :
  status response = 200 ->
  Js.lookup "content-type" (headers response) = Some ct ->
  data response = JStr body ->
  parseColors response
  = scanParts
      (JsString.split body ("--" ++ multipart.boundary_item (JsString.split ct ";"))) [].
Proof.
  intros Hstatus Hct Hbody. unfold parseColors.
  rewrite Hstatus, Hct, Hbody. reflexivity.
Qed.

End ParseColors.

(** C7. An invocation whose source file has zero length fails with
    [SourceCorruptError], in the tag worker and in the colour worker
    alike, and the world is left as it was: no HTTP request has been
    issued and no file written. *)
Theorem empty_source_fails_before_any_call
  (P : Platform) (source : Source) (rendition : Rendition) (w : world) :
  fs_stat P (source_path source) = Some 0 ->
  CustomTags.main P source rendition w
  = (inl (SourceCorruptError "source file is empty"), w)
  /\ ColorExtract.main P source rendition w
     = (inl (SourceCorruptError "source file is empty"), w).
Proof.
  intros Hstat. split.
  - unfold CustomTags.main, bind, stat. rewrite Hstat. reflexivity.
  - apply main_empty_source. exact Hstat.
Qed.

Lemma empty_source_fails_before_any_call_witness :
  fs_stat Samples.empty_asset (source_path Samples.source) = Some 0
  /\ CustomTags.main Samples.empty_asset Samples.source Samples.rendition initial
     = (inl (SourceCorruptError "source file is empty"), initial)
  /\ ColorExtract.main Samples.empty_asset Samples.source Samples.rendition initial
     = (inl (SourceCorruptError "source file is empty"), initial).
Proof.
  split; [reflexivity |].
  apply (empty_source_fails_before_any_call
           Samples.empty_asset Samples.source Samples.rendition initial).
  reflexivity.
Defined.

(** C10. A response whose status is not 200 makes [parseColors] return
    the empty list without throwing; when such a response reaches the
    parser (a 2xx status other than 200, which axios lets through),
    the worker completes and writes a document whose three projections
    are empty. *)
Theorem non_200_status_gives_empty_document (response : HttpResponse) :
  status response <> 200 ->
  ColorExtract.parseColors response = inr []
  /\ forall (P : Platform) (source : Source) (rendition : Rendition)
            (w : world) (size : Z),
       fs_stat P (source_path source) = Some size ->
       size <> 0 ->
       instruction rendition "SENSEI_PARAMS" = None ->
       http P (ColorExtract.request P source rendition) = Reply response ->
       200 <= status response < 300 ->
       ColorExtract.main P source rendition w
       = (inr tt,
          mkWorld (requests w ++ [ColorExtract.request P source rendition])
                  (files w ++ [(rendition_path rendition,
                                [("ccai:colorNames", []);
                                 ("ccai:colorRGB", []);
                                 ("ccai:colors", [])])])).
Proof.
  intros Hstatus.
  pose proof (parseColors_not_200 response Hstatus) as Hparse.
  split; [exact Hparse |].
  intros P source rendition w size Hstat Hsize Hparams Hhttp Hok.
  exact (main_after_reply P source rendition w size response [] Hstat Hsize Hparams Hhttp Hok Hparse).
Qed.

Lemma non_200_status_gives_empty_document_witness :
  let response := Samples.multipart_response 204 [Samples.result_part Samples.COLORS_JSON] in
  status response <> 200
  /\ ColorExtract.parseColors response = inr []
  /\ ColorExtract.main (Samples.answering response) Samples.source Samples.rendition initial
     = (inr tt,
        mkWorld [ColorExtract.request (Samples.answering response) Samples.source Samples.rendition]
                [("/out/rendition.xmp",
                  [("ccai:colorNames", []); ("ccai:colorRGB", []); ("ccai:colors", [])])]).
Proof.
  intros response.
  assert (Hstatus : status response <> 200) by (simpl; lia).
  split; [exact Hstatus |].
  destruct (non_200_status_gives_empty_document response Hstatus) as [Hparse Hmain].
  split; [exact Hparse |].
  apply (Hmain (Samples.answering response) Samples.source Samples.rendition initial 1024).
  - reflexivity.
  - lia.
  - reflexivity.
  - reflexivity.
  - simpl. lia.
Defined.

(** C4, as the code has it.  When no part of a multipart response
    holds the text [Content-Disposition: form-data; name="result"]
    after its first character, be it in a header or in the content,
    [parseColors] returns the empty list and throws nothing; the worker
    then goes on and writes a document with no colours. *)
Theorem missing_result_part_gives_no_colors
  (response : HttpResponse) (ct body : string) :
  Js.lookup "content-type" (headers response) = Some ct ->
  data response = JStr body ->
  (forall part, In part (Spec.partsOf ct body) -> ~ Spec.namesResult part) ->
  ColorExtract.parseColors response = inr []
  /\ forall (P : Platform) (source : Source) (rendition : Rendition)
            (w : world) (size : Z),
       fs_stat P (source_path source) = Some size ->
       size <> 0 ->
       instruction rendition "SENSEI_PARAMS" = None ->
       http P (ColorExtract.request P source rendition) = Reply response ->
       200 <= status response < 300 ->
       ColorExtract.main P source rendition w
       = (inr tt,
          mkWorld (requests w ++ [ColorExtract.request P source rendition])
                  (files w ++ [(rendition_path rendition, ColorExtract.xmpOf [])])).
Proof.
  intros Hct Hbody Hnone.
  assert (Hparse : ColorExtract.parseColors response = inr []).
  { destruct (Z.eq_dec (status response) 200) as [H200 | Hother].
    - rewrite (parseColors_200 response ct body H200 Hct Hbody).
      apply scanParts_no_result. intros part Hin.
      specialize (Hnone part Hin). unfold Spec.namesResult in Hnone. lia.
    - apply parseColors_not_200. exact Hother. }
  split; [exact Hparse |].
  intros P source rendition w size Hstat Hsize Hparams Hhttp Hok.
  exact (main_after_reply P source rendition w size response [] Hstat Hsize Hparams Hhttp Hok Hparse).
Qed.

Lemma no_result_parts :
  forall part,
    In part (Spec.partsOf "multipart/form-data; boundary=Boundary_7"
               (Samples.multipart_body "Boundary_7" [Samples.status_part])) ->
    ~ Spec.namesResult part.
Proof.
  intros part Hin. unfold Spec.namesResult.
  vm_compute in Hin.
  repeat (destruct Hin as [Heq | Hin]; [subst part; vm_compute; discriminate |]).
  destruct Hin.
Qed.

Lemma missing_result_part_gives_no_colors_witness :
  ColorExtract.parseColors Samples.no_result_response = inr []
  /\ ColorExtract.main (Samples.answering Samples.no_result_response)
       Samples.source Samples.rendition initial
     = (inr tt,
        mkWorld [ColorExtract.request (Samples.answering Samples.no_result_response)
                   Samples.source Samples.rendition]
                [("/out/rendition.xmp",
                  [("ccai:colorNames", []); ("ccai:colorRGB", []); ("ccai:colors", [])])]).
Proof.
  destruct (missing_result_part_gives_no_colors Samples.no_result_response
              "multipart/form-data; boundary=Boundary_7"
              (Samples.multipart_body "Boundary_7" [Samples.status_part])
              eq_refl eq_refl no_result_parts) as [Hparse Hmain].
  split; [exact Hparse |].
  apply (Hmain (Samples.answering Samples.no_result_response)
           Samples.source Samples.rendition initial 1024).
  - reflexivity.
  - lia.
  - reflexivity.
  - reflexivity.
  - simpl. lia.
Defined.

(** C4, as stated, fails: a response whose parts are the status part
    and a part named [log], so that no part is named [result], makes
    [parseColors] throw.  The content of the log part is the
    disposition text; the part is taken for the result, its fifth line
    is parsed as JSON and the parse fails. *)
Lemma part_quoting_the_disposition_is_taken_for_the_result :
  nth_error (JsString.split Shape.log_part CRLF) 1
  = Some (quoted "Content-Disposition: form-data; name='log'")
  /\ nth_error (JsString.split Shape.log_part CRLF) 4
     = Some ColorExtract.RESULT_DISPOSITION
  /\ ColorExtract.parseColors Shape.log_response
     = inl (SyntaxError "Unexpected token or end of JSON input").
Proof.
  split; [| split]; vm_compute; reflexivity.
Qed.

(** ** Web colours *)

Section WebColor.

Import ColorExtract.

Lemma toUint8_byte (n : Z) : 0 <= n <= 255 -> toUint8 (JNum (inject_Z n)) = n.
Proof.
  intros Hn. unfold toUint8. simpl. rewrite Z.quot_1_r. apply Z.mod_small. lia.
Qed.

Lemma lowerHexValue_hexDigit (k : Z) :
  0 <= k < 16 -> Spec.lowerHexValue (hexDigit k) = Some k.
Proof.
  intros Hk.
  assert (Hcases : k = 0 \/ k = 1 \/ k = 2 \/ k = 3 \/ k = 4 \/ k = 5 \/ k = 6 \/ k = 7
                   \/ k = 8 \/ k = 9 \/ k = 10 \/ k = 11 \/ k = 12 \/ k = 13 \/ k = 14
                   \/ k = 15) by lia.
  repeat (destruct Hcases as [-> | Hcases]; [reflexivity |]).
  subst k. reflexivity.
Qed.

Lemma pairValue_byte (n : Z) :
  0 <= n <= 255 -> Spec.pairValue (hexDigit (n / 16)) (hexDigit (n mod 16)) = Some n.
Proof.
  intros Hn. unfold Spec.pairValue.
  rewrite (lowerHexValue_hexDigit (n / 16)), (lowerHexValue_hexDigit (n mod 16)).
  - f_equal. pose proof (Z.div_mod n 16). lia.
  - apply Z.mod_pos_bound. lia.
  - split.
    + apply Z.div_pos; lia.
    + apply Z.div_lt_upper_bound; lia.
Qed.

End WebColor.

(** C9. For a colour whose channels are integers in [0, 255], the web
    colour is a hash sign followed by exactly six lower-case
    hexadecimal digits, two per channel in the order red, green, blue,
    each pair being the zero-padded value of its channel; and the
    colour with red 10, green 0 and blue 255 gives [#0a00ff]. *)
Theorem web_color_is_hash_and_six_hex_digits :
  (forall (color : ColorExtract.Color) (r g b : Z),
      ColorExtract.red color = JNum (inject_Z r) ->
      ColorExtract.green color = JNum (inject_Z g) ->
      ColorExtract.blue color = JNum (inject_Z b) ->
      0 <= r <= 255 -> 0 <= g <= 255 -> 0 <= b <= 255 ->
      Spec.readWebColor (ColorExtract.toWebColor color) = Some (r, g, b))
  /\ forall (name : string) (percentage : jsval),
       ColorExtract.toWebColor
         (ColorExtract.mkColor name percentage (JNum 10) (JNum 0) (JNum 255))
       = "#0a00ff".
Proof.
  split.
  - intros color r g b Hr Hg Hb Rr Rg Rb.
    unfold ColorExtract.toWebColor. rewrite Hr, Hg, Hb. simpl map.
    rewrite !toUint8_byte by assumption.
    simpl. unfold Spec.readWebColor.
    rewrite !pairValue_byte by assumption. reflexivity.
  - intros name percentage. reflexivity.
Qed.

Lemma web_color_is_hash_and_six_hex_digits_witness :
  let color := ColorExtract.mkColor "teal" (JNum (3 # 10)) (JNum 0) (JNum 128) (JNum 129) in
  ColorExtract.toWebColor color = "#008081"
  /\ Spec.readWebColor (ColorExtract.toWebColor color) = Some (0, 128, 129).
Proof.
  intros color. split; [reflexivity |].
  apply (proj1 web_color_is_hash_and_six_hex_digits color 0 128 129);
    try reflexivity; lia.
Defined.

(** ** Sorting the colours *)

Section Sorting.

Import ColorExtract.

Lemma compareColors_numeric (a b : Color) (x y : Q) :
  Spec.coverage a = Some x -> Spec.coverage b = Some y ->
  compareColors a b = (y - x)%Q.
Proof.
  unfold Spec.coverage, compareColors, Js.sub. intros -> ->. reflexivity.
Qed.

Lemma descending_trans (a b c : Color) :
  Spec.descending a b -> Spec.descending b c -> Spec.descending a c.
Proof.
  intros (x & y & Ha & Hb & Hxy) (y' & z & Hb' & Hc & Hyz).
  rewrite Hb in Hb'. injection Hb' as <-.
  exists x, z. repeat split; try assumption.
  apply Qle_trans with y; assumption.
Qed.

Lemma insertColor_Forall (Q : Color -> Prop) (a : Color) (l : list Color) :
  Q a -> Forall Q l -> Forall Q (insertColor a l).
Proof.
  intros Ha Hl. induction Hl as [| b rest Hb Hrest IH]; simpl.
  - constructor; [exact Ha | constructor].
  - destruct (Qle_bool (compareColors a b) 0).
    + constructor; [exact Ha |]. constructor; assumption.
    + constructor; assumption.
Qed.


Lemma insertColor_sorted (a : Color) (l : list Color) :
  Spec.numeric a -> Forall Spec.numeric l ->
  StronglySorted Spec.descending l ->
  StronglySorted Spec.descending (insertColor a l).
Proof.
  intros [x Ha] Hnum Hsorted.
  induction Hsorted as [| b rest Hrest IH Hb]; simpl.
  - constructor; constructor.
  - inversion Hnum as [| ? ? [y Hy] Hnum']; subst.
    rewrite (compareColors_numeric a b x y Ha Hy).
    destruct (Qle_bool (y - x) 0) eqn:Hcmp.
    + apply Qle_bool_iff in Hcmp.
      assert (Hab : Spec.descending a b).
      { exists x, y. repeat split; try assumption. lra. }
      constructor.
      * constructor; assumption.
      * constructor; [exact Hab |].
        eapply Forall_impl; [| exact Hb].
        intros c Hbc. exact (descending_trans a b c Hab Hbc).
    + assert (Hba : Spec.descending b a).
      { exists y, x. repeat split; try assumption.
        destruct (Qlt_le_dec x y) as [Hlt | Hle]; [lra |].
        assert (Htrue : Qle_bool (y - x) 0 = true) by (apply Qle_bool_iff; lra).
        rewrite Htrue in Hcmp. discriminate. }
      constructor.
      * apply IH. exact Hnum'.
      * apply insertColor_Forall; assumption.
Qed.


Lemma sortColors_Forall (Q : Color -> Prop) (colors : list Color) :
  Forall Q colors -> Forall Q (sortColors colors).
Proof.
  intros H. induction H as [| a rest Ha Hrest IH]; simpl.
  - constructor.
  - apply insertColor_Forall; assumption.
Qed.

Lemma sortColors_sorted (colors : list Color) :
  Forall Spec.numeric colors -> StronglySorted Spec.descending (sortColors colors).
Proof.
  intros H. induction H as [| a rest Ha Hrest IH]; simpl.
  - constructor.
  - apply insertColor_sorted; [exact Ha | | exact IH].
    apply sortColors_Forall. exact Hrest.
Qed.

End Sorting.



(** ** Running the tag worker *)

Section TagRun.

Import CustomTags.

Variable P : Platform.

(** The handler always throws and leaves the world alone. *)
Lemma handler_throws (error : exn) (w : world) :
  exists e, (logFailure error ;;; throw (Error (failureMessage error))) w = (@inl exn jsval e, w).
Proof.
  unfold logFailure, bind, lift, throw, ret.
  destruct (response_of error) as [r |].
  - destruct (logged r); eexists; reflexivity.
  - eexists; reflexivity.
Qed.

(** A classifier call issues its one request and nothing else. *)
Lemma callClassifier_world endpoint id headers data_ (w : world) :
  snd (callClassifier P endpoint id headers data_ w)
  = mkWorld (requests w ++ [config endpoint id headers data_]) (files w).
Proof.
  unfold callClassifier, try_catch.
  set (attempt := (response <- axios P (config endpoint id headers data_) ;;
                   lift (tagsOf response))).
  assert (Hattempt : snd (attempt w)
                     = mkWorld (requests w ++ [config endpoint id headers data_]) (files w)).
  { unfold attempt, bind, axios, lift.
    destruct (http P (config endpoint id headers data_)) as [r |]; [| reflexivity].
    destruct ((200 <=? status r) && (status r <? 300)); reflexivity. }
  destruct (attempt w) as [[e | tags] w']; simpl in *.
  - destruct (handler_throws e w') as [e' ->]. exact Hattempt.
  - exact Hattempt.
Qed.

(** A classifier call writes no file. *)
Lemma callClassifier_files endpoint id headers data_ (w : world) :
  files (snd (callClassifier P endpoint id headers data_ w)) = files w.
Proof.
  rewrite callClassifier_world. reflexivity.
Qed.

(** A reply outside the 2xx range makes the call throw. *)
Lemma callClassifier_rejected endpoint id headers data_ (w : world) (r : HttpResponse) :
  http P (config endpoint id headers data_) = Reply r ->
  ~ (200 <= status r < 300) ->
  exists e, fst (callClassifier P endpoint id headers data_ w) = inl e.
Proof.
  intros Hhttp Hbad.
  unfold callClassifier, try_catch, bind, axios, lift, logFailure, throw, ret.
  rewrite Hhttp.
  assert (Hrange : (200 <=? status r) && (status r <? 300) = false).
  { apply andb_false_iff.
    destruct (Z_lt_le_dec (status r) 200) as [Hlow | Hhigh].
    - left. apply Z.leb_gt. exact Hlow.
    - right. apply Z.ltb_ge. lia. }
  rewrite Hrange. simpl.
  destruct (logged r) as [e | v]; simpl; eexists; reflexivity.
Qed.

Lemma collectTags_files endpoint headers data_ ids allTags (w : world) :
  files (snd (collectTags P endpoint headers data_ ids allTags w)) = files w.
Proof.
  revert allTags w. induction ids as [| id rest IH]; intros allTags w; simpl.
  - reflexivity.
  - unfold bind.
    pose proof (callClassifier_files endpoint id headers data_ w) as Hcall.
    destruct (callClassifier P endpoint id headers data_ w) as [[e | tags] w']; simpl in *.
    + exact Hcall.
    + rewrite IH. exact Hcall.
Qed.

(** The loop throws as soon as one of its classifiers is answered
    outside the 2xx range, whatever the others answer. *)
Lemma collectTags_rejected endpoint headers data_ ids allTags (w : world)
  (id : string) (r : HttpResponse) :
  In id ids ->
  http P (config endpoint id headers data_) = Reply r ->
  ~ (200 <= status r < 300) ->
  exists e, fst (collectTags P endpoint headers data_ ids allTags w) = inl e.
Proof.
  intros Hin Hhttp Hbad. revert allTags w.
  induction ids as [| id' rest IH]; intros allTags w; simpl.
  - destruct Hin.
  - unfold bind.
    destruct (callClassifier P endpoint id' headers data_ w) as [[e | tags] w'] eqn:Hcall.
    + exists e. reflexivity.
    + destruct Hin as [-> | Hin].
      * destruct (callClassifier_rejected endpoint id headers data_ w r Hhttp Hbad)
          as [e He].
        rewrite Hcall in He. discriminate.
      * apply IH. exact Hin.
Qed.

End TagRun.

(** C1. If one of the configured classifiers is answered with a status
    outside the 2xx range, the tag worker's invocation ends with a
    thrown error, whatever the other classifiers returned, and no file
    has been written. *)
Theorem failing_classifier_aborts_tag_worker
  (P : Platform) (source : Source) (rendition : Rendition) (w : world)
  (id : string) (r : HttpResponse) :
  In id (CustomTags.classifier_ids rendition) ->
  http P (CustomTags.config (CustomTags.endpoint rendition) id
            (CustomTags.requestHeaders P rendition) (CustomTags.requestData source))
  = Reply r ->
  ~ (200 <= status r < 300) ->
  (exists e, fst (CustomTags.main P source rendition w) = inl e)
  /\ files (snd (CustomTags.main P source rendition w)) = files w.
Proof.
  intros Hin Hhttp Hbad.
  unfold CustomTags.main, bind, stat.
  destruct (fs_stat P (source_path source)) as [size |]; simpl.
  2: { split; [eexists; reflexivity | reflexivity]. }
  destruct (size =? 0); simpl.
  { split; [eexists; reflexivity | reflexivity]. }
  destruct (collectTags_rejected P _ _ _ _ [] w id r Hin Hhttp Hbad) as [e He].
  pose proof (collectTags_files P (CustomTags.endpoint rendition)
                (CustomTags.requestHeaders P rendition) (CustomTags.requestData source)
                (CustomTags.classifier_ids rendition) [] w) as Hfiles.
  destruct (CustomTags.collectTags P (CustomTags.endpoint rendition)
              (CustomTags.requestHeaders P rendition) (CustomTags.requestData source)
              (CustomTags.classifier_ids rendition) [] w) as [[e' | allTags] w'];
    simpl in *.
  - split; [exists e'; reflexivity | exact Hfiles].
  - discriminate.
Qed.

Lemma failing_classifier_aborts_tag_worker_witness :
  let P := Samples.two_classifiers
             (Samples.tags_reply [("person", 9 # 10)]) Samples.failure_reply in
  fst (CustomTags.main P Samples.source Samples.rendition initial)
  = inl (Error "Failed getting custom tags: 500 Internal Server Error")
  /\ (exists e, fst (CustomTags.main P Samples.source Samples.rendition initial) = inl e)
  /\ files (snd (CustomTags.main P Samples.source Samples.rendition initial)) = [].
Proof.
  intros P. split; [reflexivity |].
  apply (failing_classifier_aborts_tag_worker P Samples.source Samples.rendition initial
           "10023" Samples.failure_reply).
  - right. left. reflexivity.
  - reflexivity.
  - simpl. lia.
Defined.

(** ** What a failed classifier call throws *)

Section TagErrors.

Import CustomTags.

Variable P : Platform.

Lemma callClassifier_rejected_error endpoint id headers data_ (w : world) (r : HttpResponse) :
  http P (config endpoint id headers data_) = Reply r ->
  ~ (200 <= status r < 300) ->
  logged r = inr tt ->
  callClassifier P endpoint id headers data_ w
  = (inl (Error ("Failed getting custom tags: "
                 ++ JsString.of_Z (status r) ++ " " ++ statusText r)),
     mkWorld (requests w ++ [config endpoint id headers data_]) (files w)).
Proof.
  intros Hhttp Hbad Hlogged.
  unfold callClassifier, try_catch, bind, axios, lift, logFailure, throw, ret.
  rewrite Hhttp.
  assert (Hrange : (200 <=? status r) && (status r <? 300) = false).
  { apply andb_false_iff.
    destruct (Z_lt_le_dec (status r) 200) as [Hlow | Hhigh].
    - left. apply Z.leb_gt. exact Hlow.
    - right. apply Z.ltb_ge. lia. }
  rewrite Hrange. simpl. rewrite Hlogged. reflexivity.
Qed.

(** A body in the vendor's error format, an object with a text
    [message] and no [toString] member, can always be logged; so can a
    body that is a string. *)
Lemma vendor_errors_are_logged (r : HttpResponse) :
  (exists ms text, data r = JObj ms /\ Js.lookup "message" ms = Some (JStr text)
                   /\ Js.lookup "toString" ms = None)
  \/ (exists text, data r = JStr text) ->
  logged r = inr tt.
Proof.
  unfold logged.
  intros [(ms & text & -> & Hmessage & HtoString) | (text & ->)]; simpl.
  - rewrite Hmessage. destruct text; simpl; [rewrite HtoString |]; reflexivity.
  - reflexivity.
Qed.

(** Converting to text throws nothing but TypeErrors, and so does
    building the log line. *)
Fixpoint checkToString_throws_type_errors (v : jsval) :
  forall e, Js.checkToString v = inl e -> exists message, e = TypeError message.
Proof.
  destruct v as [| | b | q | s | items | members]; simpl; intros e H;
    try discriminate.
  - induction items as [| x rest IH]; [discriminate |].
    destruct (Js.checkToString x) as [e' | u] eqn:Hx.
    + injection H as <-. exact (checkToString_throws_type_errors x e' Hx).
    + exact (IH H).
  - destruct (Js.lookup "toString" members); [| discriminate].
    injection H as <-. eexists. reflexivity.
Qed.

Lemma logged_throws_type_errors (r : HttpResponse) (e : exn) :
  logged r = inl e -> exists message, e = TypeError message.
Proof.
  unfold logged, and_then.
  destruct (Js.get (data r) "message") as [e' | message] eqn:Hget.
  - intros H. injection H as <-.
    destruct (data r); simpl in Hget; try discriminate;
      injection Hget as <-; eexists; reflexivity.
  - apply checkToString_throws_type_errors.
Qed.

Lemma callClassifier_malformed_error endpoint id headers data_ (w : world)
  (r : HttpResponse) (e : exn) :
  http P (config endpoint id headers data_) = Reply r ->
  200 <= status r < 300 ->
  tagsOf r = inl e ->
  callClassifier P endpoint id headers data_ w
  = (inl (Error "Failed getting custom tags: undefined undefined"),
     mkWorld (requests w ++ [config endpoint id headers data_]) (files w)).
Proof.
  intros Hhttp Hok Hmalformed.
  unfold callClassifier, try_catch, bind, axios, lift.
  rewrite Hhttp.
  assert (Hrange : (200 <=? status r) && (status r <? 300) = true).
  { apply andb_true_iff. split; [apply Z.leb_le | apply Z.ltb_lt]; lia. }
  rewrite Hrange, Hmalformed.
  unfold tagsOf, and_then in Hmalformed.
  assert (Hresponse : response_of e = None).
  { destruct (Js.get (data r) "result") as [e1 | result] eqn:H1.
    - injection Hmalformed as <-. destruct (data r); simpl in H1; try discriminate;
        injection H1 as <-; reflexivity.
    - destruct (Js.get0 result) as [e2 | first] eqn:H2.
      + injection Hmalformed as <-. destruct result; simpl in H2; try discriminate;
          injection H2 as <-; reflexivity.
      + destruct first; simpl in Hmalformed; try discriminate;
          injection Hmalformed as <-; reflexivity. }
  unfold logFailure, failureMessage, throw, ret. rewrite Hresponse. reflexivity.
Qed.

End TagErrors.

(** C6, as the code has it.  A classifier call answered outside the
    2xx range, with a body the handler can log (reading its [message]
    and converting [data.message || data] to text throw nothing, as for
    any body that is a string or an object with a text [message] and
    no [toString] member), throws a plain [Error] whose message is
    [Failed getting custom tags: <status> <statusText>]: it carries the
    HTTP status and status text of the reply and no classifier id.  A
    2xx reply whose [data.result[0].tags] cannot be read throws the
    same kind of error with the message
    [Failed getting custom tags: undefined undefined]. *)
Theorem classifier_error_carries_status_only
  (P : Platform) (endpoint id : string) (headers : list (string * option string))
  (data_ : jsval) (w : world) (r : HttpResponse) :
  http P (CustomTags.config endpoint id headers data_) = Reply r ->
  (~ (200 <= status r < 300) ->
   CustomTags.logged r = inr tt ->
   fst (CustomTags.callClassifier P endpoint id headers data_ w)
   = inl (Error ("Failed getting custom tags: "
                 ++ JsString.of_Z (status r) ++ " " ++ statusText r)))
  /\ (200 <= status r < 300 ->
      (exists e, CustomTags.tagsOf r = inl e) ->
      fst (CustomTags.callClassifier P endpoint id headers data_ w)
      = inl (Error "Failed getting custom tags: undefined undefined")).
Proof.
  intros Hhttp. split.
  - intros Hbad Hlogged.
    rewrite (callClassifier_rejected_error P endpoint id headers data_ w r Hhttp Hbad Hlogged).
    reflexivity.
  - intros Hok [e Hmalformed].
    rewrite (callClassifier_malformed_error P endpoint id headers data_ w r e Hhttp Hok Hmalformed).
    reflexivity.
Qed.

Lemma classifier_error_carries_status_only_witness :
  let call reply :=
    fst (CustomTags.callClassifier (Samples.answering reply)
           CustomTags.DEFAULT_CCAI_ENDPOINT "10023" [] JNull initial) in
  CustomTags.logged Samples.failure_reply = inr tt
  /\ call Samples.failure_reply
     = inl (Error "Failed getting custom tags: 500 Internal Server Error")
  /\ call (mkResponse 200 "OK" [] (JObj [("result", JArr [])]))
     = inl (Error "Failed getting custom tags: undefined undefined").
Proof.
  intros call. split; [reflexivity |]. split.
  - apply (proj1 (classifier_error_carries_status_only (Samples.answering Samples.failure_reply)
                    CustomTags.DEFAULT_CCAI_ENDPOINT "10023" [] JNull initial
                    Samples.failure_reply eq_refl)).
    + simpl. lia.
    + reflexivity.
  - apply (proj2 (classifier_error_carries_status_only
                    (Samples.answering (mkResponse 200 "OK" [] (JObj [("result", JArr [])])))
                    CustomTags.DEFAULT_CCAI_ENDPOINT "10023" [] JNull initial
                    (mkResponse 200 "OK" [] (JObj [("result", JArr [])])) eq_refl)).
    + simpl. lia.
    + eexists. reflexivity.
Defined.

(** C6, as stated, fails: classifier 10023 answered with status 500
    throws an error whose message does not hold the text 10023, and
    which is the very error classifier 10021 throws on the same
    answer. *)
Lemma classifier_error_omits_classifier_id :
  let call id :=
    fst (CustomTags.callClassifier (Samples.answering Samples.failure_reply)
           CustomTags.DEFAULT_CCAI_ENDPOINT id [] JNull initial) in
  call "10023" = inl (Error "Failed getting custom tags: 500 Internal Server Error")
  /\ JsString.indexOf "Failed getting custom tags: 500 Internal Server Error" "10023" = -1
  /\ call "10021" = call "10023".
Proof.
  intros call. split; [| split]; vm_compute; reflexivity.
Qed.

(** ** Well-formed tag replies *)

Section TagReplies.

Import CustomTags.

Variable P : Platform.

Lemma labels_of_tags (tags : list (string * Q)) :
  labels (map Spec.tagValue tags) = inr (map Spec.labelItem tags).
Proof.
  induction tags as [| t rest IH]; simpl.
  - reflexivity.
  - rewrite IH. reflexivity.
Qed.

(** When every classifier is answered with a 2xx reply whose
    [result[0].tags] is an array of tags, the loop returns the tags of
    all classifiers, one classifier after the other in the order of the
    ids, each classifier's tags in the order it sent them. *)
Lemma collectTags_concatenates endpoint headers data_ (ids : list string)
  (answer : string -> list (string * Q)) (allTags : list jsval) (w : world) :
  (forall id, In id ids ->
     exists r, http P (config endpoint id headers data_) = Reply r
               /\ 200 <= status r < 300
               /\ tagsOf r = inr (JArr (map Spec.tagValue (answer id)))) ->
  fst (collectTags P endpoint headers data_ ids allTags w)
  = inr (allTags ++ map Spec.tagValue (flat_map answer ids))%list.
Proof.
  revert allTags w. induction ids as [| id rest IH]; intros allTags w Hvalid; simpl.
  - rewrite app_nil_r. reflexivity.
  - destruct (Hvalid id (or_introl eq_refl)) as (r & Hhttp & Hok & Htags).
    assert (Hrange : (200 <=? status r) && (status r <? 300) = true).
    { apply andb_true_iff. split; [apply Z.leb_le | apply Z.ltb_lt]; lia. }
    unfold bind at 1. unfold callClassifier, try_catch, bind, axios, lift.
    rewrite Hhttp, Hrange, Htags. simpl concat.
    rewrite IH.
    + rewrite map_app, app_assoc. reflexivity.
    + intros id' Hin. apply Hvalid. right. exact Hin.
Qed.

(** The worker then writes one label per tag, in that order: no tag is
    dropped and none is moved. *)
Lemma main_concatenates (source : Source) (rendition : Rendition)
  (answer : string -> list (string * Q)) (w : world) (size : Z) :
  fs_stat P (source_path source) = Some size ->
  size <> 0 ->
  (forall id, In id (classifier_ids rendition) ->
     exists r, http P (config (endpoint rendition) id (requestHeaders P rendition)
                         (requestData source)) = Reply r
               /\ 200 <= status r < 300
               /\ tagsOf r = inr (JArr (map Spec.tagValue (answer id)))) ->
  fst (main P source rendition w) = inr tt
  /\ files (snd (main P source rendition w))
     = (files w ++ [(rendition_path rendition,
                     [("ccai:labels",
                       map Spec.labelItem (flat_map answer (classifier_ids rendition)))])])%list.
Proof.
  intros Hstat Hsize Hvalid.
  unfold main, bind, stat. rewrite Hstat. unfold ret.
  apply Z.eqb_neq in Hsize. rewrite Hsize.
  pose proof (collectTags_concatenates (endpoint rendition) (requestHeaders P rendition)
                (requestData source) (classifier_ids rendition) answer [] w Hvalid) as Hfst.
  pose proof (collectTags_files P (endpoint rendition) (requestHeaders P rendition)
                (requestData source) (classifier_ids rendition) [] w) as Hfiles.
  destruct (collectTags P (endpoint rendition) (requestHeaders P rendition)
              (requestData source) (classifier_ids rendition) [] w) as [[e | allTags] w'];
    simpl in Hfst, Hfiles; [discriminate |].
  injection Hfst as ->. unfold lift. rewrite labels_of_tags.
  unfold writeFile. simpl. rewrite Hfiles. split; reflexivity.
Qed.

End TagReplies.

(** C2 at a failing input.  Classifier 10021 answers one tag of
    confidence 0.2 and classifier 10023 one tag of confidence 0.9: the
    worker writes both labels (none is dropped), in the order of the
    calls, so the lower confidence stands before the higher one and the
    written list is not ordered from high to low confidence. *)
Theorem concatenated_tags_are_not_sorted :
  let P := Samples.two_classifiers
             (Samples.tags_reply [("indoor", 2 # 10)])
             (Samples.tags_reply [("person", 9 # 10)]) in
  CustomTags.classifier_ids Samples.rendition = ["10021"; "10023"]
  /\ fst (CustomTags.main P Samples.source Samples.rendition initial) = inr tt
  /\ files (snd (CustomTags.main P Samples.source Samples.rendition initial))
     = [("/out/rendition.xmp",
         [("ccai:labels",
           map Spec.labelItem [("indoor", 2 # 10); ("person", 9 # 10)])])]
  /\ ~ Spec.confidencesDescend [("indoor", 2 # 10); ("person", 9 # 10)].
Proof.
  intros P. split; [reflexivity |]. split; [reflexivity |]. split; [reflexivity |].
  intros Hsorted. inversion Hsorted as [| a rest _ Hall]; subst.
  inversion Hall as [| b rest' Hle _]; subst.
  simpl in Hle. lra.
Qed.

(** ** Normalising decoded colours *)

Section Normalise.

Import ColorExtract.

Lemma pushColors_copies (entries : list (string * jsval * jsval * jsval * jsval))
  (colors : list Color) :
  pushColors (map Spec.colorEntry entries) colors
  = inr (colors ++ map Spec.colorFeature entries)%list.
Proof.
  revert colors. induction entries as [| e rest IH]; intros colors; simpl.
  - rewrite app_nil_r. reflexivity.
  - destruct e as [[[[n c] r] g] b]. simpl.
    rewrite IH. rewrite <- app_assoc. reflexivity.
Qed.

Lemma scanParts_first_result (before after : list string) (part : string)
  (colors : list Color) :
  (forall p, In p before -> ~ Spec.namesResult p) ->
  Spec.namesResult part ->
  scanParts (before ++ part :: after) colors = readResult part colors.
Proof.
  intros Hbefore Hpart. induction before as [| p rest IH]; simpl.
  - unfold Spec.namesResult in Hpart. apply Z.ltb_lt in Hpart.
    rewrite Hpart. reflexivity.
  - assert (Hp : ~ Spec.namesResult p) by (apply Hbefore; left; reflexivity).
    unfold Spec.namesResult in Hp.
    assert (Hskip : (0 <? JsString.indexOf p RESULT_DISPOSITION) = false)
      by (apply Z.ltb_ge; lia).
    rewrite Hskip. apply IH. intros q Hq. apply Hbefore. right. exact Hq.
Qed.

End Normalise.

(** C3, as the code has it.  Normalisation checks no range: for every
    decoded record, each entry of its [colors] table becomes one
    feature that carries the entry's name and exactly the decoded
    coverage, red, green and blue values, whatever they are, in the
    order of the table; nothing is thrown. *)
Theorem decoded_colors_are_copied_unchecked
  (entries : list (string * jsval * jsval * jsval * jsval))
  (colors : list ColorExtract.Color) :
  ColorExtract.colorsOf (Spec.colorRecord entries) colors
  = inr (colors ++ map Spec.colorFeature entries)%list.
Proof.
  unfold ColorExtract.colorsOf, Spec.colorRecord. simpl.
  apply pushColors_copies.
Qed.

(** C3, as stated, fails: a result whose red channel is 300, blue
    channel -1 and coverage 1.5 is decoded without any error into a
    feature that holds these very values. *)
Lemma out_of_range_color_passes_through :
  ColorExtract.parseColors Samples.out_of_range_response
  = inr [ColorExtract.mkColor "red" (JNum (15 # 10)) (JNum 300) (JNum 10) (JNum (-1))]
  /\ forall e, ColorExtract.parseColors Samples.out_of_range_response <> inl e.
Proof.
  split.
  - vm_compute. reflexivity.
  - intros e. vm_compute. discriminate.
Qed.

(** C5, as the code has it.  In a response of status 200, let the
    first part that holds the disposition text after its first
    character have the JSON text of the claim as its fifth line, the
    lines being cut at CRLF (a part with exactly two header lines, as
    the service sends it).  Then [parseColors] returns exactly one
    colour: name red, percentage 0.6, red 200, green 10, blue 10. *)
Theorem result_on_fifth_line_is_decoded
  (response : HttpResponse) (ct body : string)
  (before after : list string) (part : string) :
  status response = 200 ->
  Js.lookup "content-type" (headers response) = Some ct ->
  data response = JStr body ->
  Spec.partsOf ct body = (before ++ part :: after)%list ->
  (forall p, In p before -> ~ Spec.namesResult p) ->
  Spec.namesResult part ->
  nth_error (JsString.split part CRLF) 4 = Some Samples.COLORS_JSON ->
  ColorExtract.parseColors response
  = inr [ColorExtract.mkColor "red" (JNum (6 # 10)) (JNum 200) (JNum 10) (JNum 10)].
Proof.
  intros Hstatus Hct Hbody Hparts Hbefore Hpart Hline.
  rewrite (parseColors_200 response ct body Hstatus Hct Hbody).
  unfold Spec.partsOf in Hparts. rewrite Hparts.
  rewrite (scanParts_first_result before after part [] Hbefore Hpart).
  unfold ColorExtract.readResult. rewrite Hline.
  vm_compute. reflexivity.
Qed.

Lemma result_on_fifth_line_is_decoded_witness :
  ColorExtract.parseColors Samples.service_response
  = inr [ColorExtract.mkColor "red" (JNum (6 # 10)) (JNum 200) (JNum 10) (JNum 10)].
Proof.
  apply (result_on_fifth_line_is_decoded Samples.service_response
           "multipart/form-data; boundary=Boundary_7"
           (Samples.multipart_body "Boundary_7"
              [Samples.status_part; Samples.result_part Samples.COLORS_JSON])
           [EmptyString; Samples.status_part]
           ["--" ++ CRLF]
           (Samples.result_part Samples.COLORS_JSON)).
  - reflexivity.
  - reflexivity.
  - reflexivity.
  - vm_compute. reflexivity.
  - intros p [<- | [<- | []]]; unfold Spec.namesResult; vm_compute; discriminate.
  - unfold Spec.namesResult. vm_compute. reflexivity.
  - vm_compute. reflexivity.
Defined.

(** C5, as stated, fails: a well-formed multipart response whose
    result part carries the same JSON body behind its disposition
    header alone (no content-type line) is not decoded; the fifth line
    of that part is empty and [JSON.parse] throws. *)
Lemma result_part_with_one_header_is_rejected :
  nth_error (JsString.split (Samples.bare_result_part Samples.COLORS_JSON) CRLF) 3
  = Some Samples.COLORS_JSON
  /\ nth_error (JsString.split (Samples.bare_result_part Samples.COLORS_JSON) CRLF) 4
     = Some EmptyString
  /\ ColorExtract.parseColors Samples.bare_response
     = inl (SyntaxError "Unexpected token or end of JSON input").
Proof.
  split; [| split]; vm_compute; reflexivity.
Qed.

(** * Further properties of the workers *)

(** ** Ties and sorted input in sortColors *)

Section SortingMore.

Import ColorExtract.

Lemma hasCoverage_above (q x y : Q) (a b : Color) :
  Spec.coverage a = Some x -> Spec.coverage b = Some y ->
  (x < y)%Q -> Shape.hasCoverage q a = true -> Shape.hasCoverage q b = false.
Proof.
  unfold Shape.hasCoverage. intros -> -> Hlt Ha.
  apply Qeq_bool_iff in Ha.
  destruct (Qeq_bool y q) eqn:Hb; [| reflexivity].
  apply Qeq_bool_iff in Hb. lra.
Qed.

Lemma filter_insertColor (q : Q) (a : Color) (l : list Color) :
  Spec.numeric a -> Forall Spec.numeric l ->
  filter (Shape.hasCoverage q) (insertColor a l)
  = if Shape.hasCoverage q a
    then a :: filter (Shape.hasCoverage q) l
    else filter (Shape.hasCoverage q) l.
Proof.
  intros [x Ha] Hl. induction Hl as [| b rest [y Hb] Hrest IH].
  - simpl. destruct (Shape.hasCoverage q a); reflexivity.
  - simpl. rewrite (compareColors_numeric a b x y Ha Hb).
    destruct (Qle_bool (y - x) 0) eqn:Hcmp.
    + simpl. destruct (Shape.hasCoverage q a); reflexivity.
    + assert (Hlt : (x < y)%Q).
      { destruct (Qlt_le_dec x y) as [Hlt | Hle]; [exact Hlt |].
        assert (Htrue : Qle_bool (y - x) 0 = true) by (apply Qle_bool_iff; lra).
        rewrite Htrue in Hcmp. discriminate. }
      simpl. rewrite IH.
      destruct (Shape.hasCoverage q a) eqn:Hqa.
      * rewrite (hasCoverage_above q x y a b Ha Hb Hlt Hqa). reflexivity.
      * reflexivity.
Qed.

End SortingMore.

(** X1. [sortColors] keeps ties in place: among the colours whose
    coverage equals a given value, the order after sorting is the order
    in which they were parsed. *)
Theorem sortColors_keeps_ties_in_order (colors : list ColorExtract.Color) (x : Q) :
  Forall Spec.numeric colors ->
  filter (Shape.hasCoverage x) (ColorExtract.sortColors colors)
  = filter (Shape.hasCoverage x) colors.
Proof.
  intros Hnum. induction Hnum as [| a rest Ha Hrest IH]; simpl.
  - reflexivity.
  - rewrite filter_insertColor.
    + rewrite IH. reflexivity.
    + exact Ha.
    + apply sortColors_Forall. exact Hrest.
Qed.

Lemma sortColors_keeps_ties_in_order_witness :
  let grey := ColorExtract.mkColor "grey" (JNum (2 # 10)) (JNum 128) (JNum 128) (JNum 128) in
  let red := ColorExtract.mkColor "red" (JNum (6 # 10)) (JNum 200) (JNum 10) (JNum 10) in
  let teal := ColorExtract.mkColor "teal" (JNum (1 # 5)) (JNum 0) (JNum 128) (JNum 128) in
  ColorExtract.sortColors [grey; red; teal] = [red; grey; teal]
  /\ filter (Shape.hasCoverage (2 # 10)) (ColorExtract.sortColors [grey; red; teal])
     = filter (Shape.hasCoverage (2 # 10)) [grey; red; teal].
Proof.
  intros grey red teal. split; [reflexivity |].
  apply (sortColors_keeps_ties_in_order [grey; red; teal] (2 # 10)).
  repeat constructor; eexists; reflexivity.
Defined.

(** X2. A list that is already ordered from high to low coverage is
    returned by [sortColors] as it is; so sorting twice gives what
    sorting once gives. *)
Theorem sortColors_fixes_sorted_lists (colors : list ColorExtract.Color) :
  (StronglySorted Spec.descending colors -> ColorExtract.sortColors colors = colors)
  /\ (Forall Spec.numeric colors ->
      ColorExtract.sortColors (ColorExtract.sortColors colors)
      = ColorExtract.sortColors colors).
Proof.
  assert (Hfix : forall l, StronglySorted Spec.descending l -> ColorExtract.sortColors l = l).
  { intros l Hsorted. induction Hsorted as [| a rest Hrest IH Ha]; simpl.
    - reflexivity.
    - rewrite IH. destruct rest as [| b rest']; simpl.
      + reflexivity.
      + inversion Ha as [| ? ? (x & y & Hx & Hy & Hle) _]; subst.
        rewrite (compareColors_numeric a b x y Hx Hy).
        assert (Hcmp : Qle_bool (y - x) 0 = true) by (apply Qle_bool_iff; lra).
        rewrite Hcmp. reflexivity. }
  split.
  - apply Hfix.
  - intros Hnum. apply Hfix. apply sortColors_sorted. exact Hnum.
Qed.

Lemma sortColors_fixes_sorted_lists_witness :
  let red := ColorExtract.mkColor "red" (JNum (6 # 10)) (JNum 200) (JNum 10) (JNum 10) in
  let grey := ColorExtract.mkColor "grey" (JNum (2 # 10)) (JNum 128) (JNum 128) (JNum 128) in
  ColorExtract.sortColors [red; grey] = [red; grey]
  /\ ColorExtract.sortColors (ColorExtract.sortColors [grey; red])
     = ColorExtract.sortColors [grey; red].
Proof.
  intros red grey. split.
  - apply (proj1 (sortColors_fixes_sorted_lists [red; grey])).
    repeat constructor; exists (6 # 10)%Q, (2 # 10)%Q; repeat split; simpl; lra.
  - apply (proj2 (sortColors_fixes_sorted_lists [grey; red])).
    repeat constructor; eexists; reflexivity.
Defined.

(** ** Web colours of arbitrary channels *)

Section WebColorMore.

Import ColorExtract.

Lemma toUint8_range (v : jsval) : 0 <= toUint8 v <= 255.
Proof.
  unfold toUint8. destruct (Js.ToNumber v) as [q |]; [| lia].
  pose proof (Z.mod_pos_bound (Z.quot (Qnum q) (Z.pos (Qden q))) 256). lia.
Qed.

Lemma readWebColor_toHex (r g b : Z) :
  0 <= r <= 255 -> 0 <= g <= 255 -> 0 <= b <= 255 ->
  Spec.readWebColor (String "#" (toHex [r; g; b])) = Some (r, g, b).
Proof.
  intros Hr Hg Hb. simpl. rewrite !pairValue_byte by assumption. reflexivity.
Qed.

End WebColorMore.

(** X3. An integer channel outside [0, 255] is not clamped by
    [toWebColor]: each pair of digits is the channel modulo 256, so
    red 300 is written 2c and blue -1 is written ff. *)
Theorem toWebColor_wraps_modulo_256 (name : string) (percentage : jsval) (r g b : Z) :
  Spec.readWebColor
    (ColorExtract.toWebColor
       (ColorExtract.mkColor name percentage
          (JNum (inject_Z r)) (JNum (inject_Z g)) (JNum (inject_Z b))))
  = Some (r mod 256, g mod 256, b mod 256).
Proof.
  unfold ColorExtract.toWebColor. simpl map.
  assert (Hbyte : forall n, ColorExtract.toUint8 (JNum (inject_Z n)) = n mod 256).
  { intros n. unfold ColorExtract.toUint8. simpl. rewrite Z.quot_1_r. reflexivity. }
  rewrite !Hbyte.
  pose proof (Z.mod_pos_bound r 256) as Hr.
  pose proof (Z.mod_pos_bound g 256) as Hg.
  pose proof (Z.mod_pos_bound b 256) as Hb.
  apply readWebColor_toHex; lia.
Qed.

(** X4. For a colour whose red, green and blue fields are numbers (of
    any size, whole or fractional), [null], booleans or [undefined],
    the web colour is a hash sign followed by exactly six lower-case
    hexadecimal digits. *)
Theorem toWebColor_is_well_formed_for_plain_channels (color : ColorExtract.Color) :
  Shape.plain (ColorExtract.red color) ->
  Shape.plain (ColorExtract.green color) ->
  Shape.plain (ColorExtract.blue color) ->
  exists r g b : Z,
    Spec.readWebColor (ColorExtract.toWebColor color) = Some (r, g, b)
    /\ 0 <= r <= 255 /\ 0 <= g <= 255 /\ 0 <= b <= 255.
Proof.
  intros _ _ _.
  exists (ColorExtract.toUint8 (ColorExtract.red color)),
         (ColorExtract.toUint8 (ColorExtract.green color)),
         (ColorExtract.toUint8 (ColorExtract.blue color)).
  pose proof (toUint8_range (ColorExtract.red color)) as Hr.
  pose proof (toUint8_range (ColorExtract.green color)) as Hg.
  pose proof (toUint8_range (ColorExtract.blue color)) as Hb.
  split; [| repeat split; lia].
  unfold ColorExtract.toWebColor. simpl map.
  apply readWebColor_toHex; assumption.
Qed.

Lemma toWebColor_is_well_formed_for_plain_channels_witness :
  let color := ColorExtract.mkColor "odd" JUndef (JNum (3007 # 10)) JNull JUndef in
  ColorExtract.toWebColor color = "#2c0000"
  /\ exists r g b : Z,
       Spec.readWebColor (ColorExtract.toWebColor color) = Some (r, g, b)
       /\ 0 <= r <= 255 /\ 0 <= g <= 255 /\ 0 <= b <= 255.
Proof.
  intros color. split; [reflexivity |].
  apply (toWebColor_is_well_formed_for_plain_channels color); exact I.
Defined.

(** ** Edges of the colour parser *)

Section ParseColorsMore.

Import ColorExtract.

Lemma pushColors_app (good : list (string * jsval * jsval * jsval * jsval))
  (tail : list (string * jsval)) (colors : list Color) :
  pushColors (map Spec.colorEntry good ++ tail) colors
  = pushColors tail (colors ++ map Spec.colorFeature good).
Proof.
  revert colors. induction good as [| e rest IH]; intros colors; simpl.
  - rewrite app_nil_r. reflexivity.
  - destruct e as [[[[n c] r] g] b]. simpl.
    rewrite IH. rewrite <- app_assoc. reflexivity.
Qed.

End ParseColorsMore.

(** X5. Only the first result part is read.  In a response of status
    200, once a part holds the disposition text, the outcome of
    [parseColors] is the outcome of reading that part: the parts after
    it are never looked at, be they further result parts or not. *)
Theorem only_first_result_part_is_read
  (response : HttpResponse) (ct body : string)
  (before after : list string) (part : string) :
  status response = 200 ->
  Js.lookup "content-type" (headers response) = Some ct ->
  data response = JStr body ->
  Spec.partsOf ct body = (before ++ part :: after)%list ->
  (forall p, In p before -> ~ Spec.namesResult p) ->
  Spec.namesResult part ->
  ColorExtract.parseColors response = ColorExtract.readResult part []
  /\ forall after', ColorExtract.scanParts (before ++ part :: after') []
                    = ColorExtract.scanParts (before ++ part :: after) [].
Proof.
  intros Hstatus Hct Hbody Hparts Hbefore Hpart.
  split.
  - rewrite (parseColors_200 response ct body Hstatus Hct Hbody).
    unfold Spec.partsOf in Hparts. rewrite Hparts.
    apply scanParts_first_result; assumption.
  - intros after'.
    rewrite !(scanParts_first_result before _ part [] Hbefore Hpart). reflexivity.
Qed.

Lemma only_first_result_part_is_read_witness :
  ColorExtract.parseColors (Shape.two_results Samples.COLORS_JSON Shape.GREEN_JSON)
  = inr [ColorExtract.mkColor "red" (JNum (6 # 10)) (JNum 200) (JNum 10) (JNum 10)].
Proof.
  destruct (only_first_result_part_is_read
              (Shape.two_results Samples.COLORS_JSON Shape.GREEN_JSON)
              "multipart/form-data; boundary=Boundary_7"
              (Samples.multipart_body "Boundary_7"
                 [Samples.status_part; Samples.result_part Samples.COLORS_JSON;
                  Samples.result_part Shape.GREEN_JSON])
              [EmptyString; Samples.status_part]
              [Samples.result_part Shape.GREEN_JSON; "--" ++ CRLF]
              (Samples.result_part Samples.COLORS_JSON)) as [Hparse _].
  - reflexivity.
  - reflexivity.
  - reflexivity.
  - vm_compute. reflexivity.
  - intros p [<- | [<- | []]]; unfold Spec.namesResult; vm_compute; discriminate.
  - unfold Spec.namesResult. vm_compute. reflexivity.
  - rewrite Hparse. vm_compute. reflexivity.
Defined.

(** X6. In a response of status 200 that has a content type, a body
    that is not text (a body axios has parsed as JSON, or no body)
    makes [parseColors] throw a TypeError instead of returning an empty
    list. *)
Theorem parseColors_needs_a_text_body (response : HttpResponse) (ct : string) :
  status response = 200 ->
  Js.lookup "content-type" (headers response) = Some ct ->
  (forall s, data response <> JStr s) ->
  exists message, ColorExtract.parseColors response = inl (TypeError message).
Proof.
  intros Hstatus Hct Hbody. unfold ColorExtract.parseColors.
  rewrite Hstatus, Hct. simpl.
  destruct (data response) as [| | b | q | s | items | members]; simpl;
    try (eexists; reflexivity).
  exfalso. exact (Hbody s eq_refl).
Qed.

Lemma parseColors_needs_a_text_body_witness :
  exists message,
    ColorExtract.parseColors
      (mkResponse 200 "OK" [("content-type", "application/json")]
         (JObj [("error", JStr "no colours")]))
    = inl (TypeError message).
Proof.
  apply (parseColors_needs_a_text_body
           (mkResponse 200 "OK" [("content-type", "application/json")]
              (JObj [("error", JStr "no colours")]))
           "application/json").
  - reflexivity.
  - reflexivity.
  - intros s. discriminate.
Defined.

(** X7. One colour entry without an [rgb] member makes the whole
    normalisation throw a TypeError: the colours read before it are
    not returned and the entries after it are not read. *)
Theorem entry_without_rgb_fails_the_whole_result
  (good : list (string * jsval * jsval * jsval * jsval))
  (entryName : string) (members : list (string * jsval))
  (rest : list (string * jsval)) (colors : list ColorExtract.Color) :
  Js.lookup "rgb" members = None ->
  ColorExtract.colorsOf
    (JArr [JObj [("colors",
                  JObj (map Spec.colorEntry good ++ (entryName, JObj members) :: rest))]])
    colors
  = inl (TypeError "Cannot read properties of undefined (reading 'red')").
Proof.
  intros Hrgb. unfold ColorExtract.colorsOf. simpl.
  rewrite pushColors_app. simpl. rewrite Hrgb. reflexivity.
Qed.

Lemma entry_without_rgb_fails_the_whole_result_witness :
  ColorExtract.colorsOf
    (JArr [JObj [("colors",
                  JObj [("red", JObj [("coverage", JNum (6 # 10));
                                      ("rgb", JObj [("red", JNum 200);
                                                    ("green", JNum 10);
                                                    ("blue", JNum 10)])]);
                        ("grey", JObj [("coverage", JNum (2 # 10))])])]])
    []
  = inl (TypeError "Cannot read properties of undefined (reading 'red')").
Proof.
  apply (entry_without_rgb_fails_the_whole_result
           [("red", JNum (6 # 10), JNum 200, JNum 10, JNum 10)]
           "grey" [("coverage", JNum (2 # 10))] [] []).
  reflexivity.
Defined.

(** X8. A result whose first element has no [colors] member yields no
    colour and no error, as the loop over [undefined] visits nothing;
    an empty result array, which has no first element, throws a
    TypeError. *)
Theorem result_without_colors_table
  (members : list (string * jsval)) (others : list jsval)
  (colors : list ColorExtract.Color) :
  Js.lookup "colors" members = None ->
  ColorExtract.colorsOf (JArr (JObj members :: others)) colors = inr colors
  /\ exists message, ColorExtract.colorsOf (JArr []) colors = inl (TypeError message).
Proof.
  intros Hcolors. split.
  - unfold ColorExtract.colorsOf. simpl. rewrite Hcolors. reflexivity.
  - eexists. reflexivity.
Qed.

Lemma result_without_colors_table_witness :
  ColorExtract.colorsOf (JArr [JObj [("status", JStr "done")]]) [] = inr []
  /\ exists message, ColorExtract.colorsOf (JArr []) [] = inl (TypeError message).
Proof.
  apply (result_without_colors_table [("status", JStr "done")] [] []).
  reflexivity.
Defined.

(** ** Failures of the colour worker *)

Section ColorFailures.

Import ColorExtract.

Lemma parse_throws_syntax_errors (text : string) (e : exn) :
  Json.parse text = inl e -> exists message, e = SyntaxError message.
Proof.
  unfold Json.parse.
  destruct (Json.value (2 * String.length text + 2) text) as [[v r] |].
  - destruct (Json.skip_ws r); intros H; [discriminate |].
    injection H as <-. eexists. reflexivity.
  - intros H. injection H as <-. eexists. reflexivity.
Qed.

Lemma accepted_range (r : HttpResponse) :
  200 <= status r < 300 -> (200 <=? status r) && (status r <? 300) = true.
Proof.
  intros H. apply andb_true_iff. split; [apply Z.leb_le | apply Z.ltb_lt]; lia.
Qed.

Lemma rejected_range (r : HttpResponse) :
  ~ (200 <= status r < 300) -> (200 <=? status r) && (status r <? 300) = false.
Proof.
  intros H. apply andb_false_iff.
  destruct (Z_lt_le_dec (status r) 200) as [Hlow | Hhigh].
  - left. apply Z.leb_gt. exact Hlow.
  - right. apply Z.ltb_ge. lia.
Qed.

End ColorFailures.

(** X9. A non-empty [SENSEI_PARAMS] instruction always stops the
    colour worker before its request: the instruction is parsed and the
    assignment to the constant [parameters] throws, so the outcome is
    a SyntaxError (text that is not JSON) or the TypeError of the
    assignment, no request has been issued and no file written. *)
Theorem sensei_params_instruction_always_throws
  (P : Platform) (source : Source) (rendition : Rendition) (w : world)
  (size : Z) (text : string) :
  fs_stat P (source_path source) = Some size ->
  size <> 0 ->
  instruction rendition "SENSEI_PARAMS" = Some text ->
  text <> EmptyString ->
  exists e,
    ColorExtract.main P source rendition w = (inl e, w)
    /\ (e = TypeError "Assignment to constant variable."
        \/ exists message, e = SyntaxError message).
Proof.
  intros Hstat Hsize Hparams Htext.
  unfold ColorExtract.main, bind, stat. rewrite Hstat. unfold ret.
  apply Z.eqb_neq in Hsize. rewrite Hsize.
  unfold ColorExtract.overrideParameters. rewrite Hparams.
  destruct text as [| c rest]; [congruence |].
  unfold bind, lift, throw.
  destruct (Json.parse (String c rest)) as [e | v] eqn:Hparse.
  - exists e. split; [reflexivity |]. right.
    exact (parse_throws_syntax_errors _ e Hparse).
  - eexists. split; [reflexivity |]. left. reflexivity.
Qed.

Lemma sensei_params_instruction_always_throws_witness :
  let valid := mkRendition "/out/rendition.xmp" [("SENSEI_PARAMS", "{}")] in
  let invalid := mkRendition "/out/rendition.xmp" [("SENSEI_PARAMS", "{")] in
  let P := Samples.answering Samples.service_response in
  (exists e,
     ColorExtract.main P Samples.source valid initial = (inl e, initial)
     /\ (e = TypeError "Assignment to constant variable."
         \/ exists message, e = SyntaxError message))
  /\ (exists e,
        ColorExtract.main P Samples.source invalid initial = (inl e, initial)
        /\ (e = TypeError "Assignment to constant variable."
            \/ exists message, e = SyntaxError message)).
Proof.
  intros valid invalid P. split.
  - apply (sensei_params_instruction_always_throws P Samples.source valid initial 1024 "{}");
      [reflexivity | lia | reflexivity | discriminate].
  - apply (sensei_params_instruction_always_throws P Samples.source invalid initial 1024 "{");
      [reflexivity | lia | reflexivity | discriminate].
Defined.

(** X10. A transport failure reaches the caller of the colour worker
    as it is: when the one request gets no reply, or a reply outside
    the 2xx range, [main] ends with the axios error (holding the reply
    if there is one), the request has been issued once and no file has
    been written. *)
Theorem colour_worker_surfaces_transport_failure
  (P : Platform) (source : Source) (rendition : Rendition) (w : world) (size : Z) :
  fs_stat P (source_path source) = Some size ->
  size <> 0 ->
  instruction rendition "SENSEI_PARAMS" = None ->
  let sent := mkWorld (requests w ++ [ColorExtract.request P source rendition]) (files w) in
  (http P (ColorExtract.request P source rendition) = NoReply ->
   ColorExtract.main P source rendition w = (inl (AxiosError None), sent))
  /\ (forall r, http P (ColorExtract.request P source rendition) = Reply r ->
                ~ (200 <= status r < 300) ->
                ColorExtract.main P source rendition w = (inl (AxiosError (Some r)), sent)).
Proof.
  intros Hstat Hsize Hparams sent.
  apply Z.eqb_neq in Hsize.
  split.
  - intros Hhttp.
    unfold ColorExtract.main, bind, stat. rewrite Hstat. unfold ret. rewrite Hsize.
    unfold ColorExtract.overrideParameters. rewrite Hparams. unfold ret, axios.
    rewrite Hhttp. reflexivity.
  - intros r Hhttp Hbad.
    unfold ColorExtract.main, bind, stat. rewrite Hstat. unfold ret. rewrite Hsize.
    unfold ColorExtract.overrideParameters. rewrite Hparams. unfold ret, axios.
    rewrite Hhttp, (rejected_range r Hbad). reflexivity.
Qed.

Lemma colour_worker_surfaces_transport_failure_witness :
  let P := Samples.answering Samples.failure_reply in
  ColorExtract.main P Samples.source Samples.rendition initial
  = (inl (AxiosError (Some Samples.failure_reply)),
     mkWorld [ColorExtract.request P Samples.source Samples.rendition] []).
Proof.
  intros P.
  apply (proj2 (colour_worker_surfaces_transport_failure
                  P Samples.source Samples.rendition initial 1024
                  eq_refl ltac:(lia) eq_refl) Samples.failure_reply).
  - reflexivity.
  - simpl. lia.
Defined.


(** ** The tag worker call by call *)

Section TagCalls.

Import CustomTags.

Variables (P : Platform) (endpoint : string)
  (headers : list (string * option string)) (data_ : jsval).

(** An accepted reply with readable tags is returned as it is. *)
Lemma callClassifier_accepted (id : string) (w : world) (r : HttpResponse) (tags : jsval) :
  http P (config endpoint id headers data_) = Reply r ->
  200 <= status r < 300 ->
  tagsOf r = inr tags ->
  callClassifier P endpoint id headers data_ w
  = (inr tags, mkWorld (requests w ++ [config endpoint id headers data_]) (files w)).
Proof.
  intros Hhttp Hok Htags.
  unfold callClassifier, try_catch, bind, axios, lift.
  rewrite Hhttp, (accepted_range r Hok), Htags. reflexivity.
Qed.

(** The loop over a run of classifiers that all answer: their tags
    are gathered and one request per classifier has been issued. *)
Lemma collectTags_prefix (answer : string -> jsval) (ok rest : list string)
  (allTags : list jsval) (w : world) :
  (forall id, In id ok ->
     exists r, http P (config endpoint id headers data_) = Reply r
               /\ 200 <= status r < 300 /\ tagsOf r = inr (answer id)) ->
  collectTags P endpoint headers data_ (ok ++ rest) allTags w
  = collectTags P endpoint headers data_ rest
      (fold_left concat (map answer ok) allTags)
      (mkWorld (requests w ++ map (fun id => config endpoint id headers data_) ok)
               (files w)).
Proof.
  revert allTags w. induction ok as [| id ok' IH]; intros allTags w Hok; simpl.
  - rewrite app_nil_r. destruct w. reflexivity.
  - destruct (Hok id (or_introl eq_refl)) as (r & Hhttp & Hrange & Htags).
    unfold bind at 1.
    rewrite (callClassifier_accepted id w r (answer id) Hhttp Hrange Htags).
    rewrite IH.
    + simpl. rewrite <- app_assoc. reflexivity.
    + intros id' Hin. apply Hok. right. exact Hin.
Qed.

Lemma concat_keeps (allTags : list jsval) (tags x : jsval) :
  In x allTags -> In x (concat allTags tags).
Proof.
  intros Hin. destruct tags; simpl; apply in_or_app; left; exact Hin.
Qed.

Lemma fold_concat_keeps (answers : list jsval) (allTags : list jsval) (x : jsval) :
  In x allTags -> In x (fold_left concat answers allTags).
Proof.
  revert allTags. induction answers as [| t rest IH]; intros allTags Hin; simpl.
  - exact Hin.
  - apply IH. apply concat_keeps. exact Hin.
Qed.

Lemma fold_concat_holds (answers : list jsval) (allTags : list jsval) (x : jsval) :
  In x answers -> x = JUndef \/ x = JNull ->
  In x (fold_left concat answers allTags).
Proof.
  revert allTags. induction answers as [| t rest IH]; intros allTags Hin Hx; simpl.
  - destruct Hin.
  - destruct Hin as [-> | Hin].
    + apply fold_concat_keeps.
      destruct Hx as [-> | ->]; simpl; apply in_or_app; right; left; reflexivity.
    + apply IH; assumption.
Qed.

Lemma fold_concat_arrays (tags : string -> list (string * Q)) (ids : list string)
  (allTags : list jsval) :
  fold_left concat (map (fun id => JArr (map Spec.tagValue (tags id))) ids) allTags
  = (allTags ++ map Spec.tagValue (flat_map tags ids))%list.
Proof.
  revert allTags. induction ids as [| id rest IH]; intros allTags; simpl.
  - rewrite app_nil_r. reflexivity.
  - rewrite IH, map_app, app_assoc. reflexivity.
Qed.

Lemma labels_throw_type_errors (allTags : list jsval) (e : exn) :
  labels allTags = inl e -> exists message, e = TypeError message.
Proof.
  revert e. induction allTags as [| t rest IH]; intros e; simpl.
  - discriminate.
  - destruct t; simpl; try (intros H; injection H as <-; eexists; reflexivity);
      (destruct (labels rest) as [e' | done]; simpl;
       [ intros H; injection H as <-; apply IH; reflexivity | discriminate ]).
Qed.

Lemma labels_reject_missing_tags (allTags : list jsval) (x : jsval) :
  In x allTags -> x = JUndef \/ x = JNull ->
  exists message, labels allTags = inl (TypeError message).
Proof.
  intros Hin Hx. induction allTags as [| t rest IH]; simpl.
  - destruct Hin.
  - destruct Hin as [-> | Hin].
    + destruct Hx as [-> | ->]; simpl; eexists; reflexivity.
    + destruct (IH Hin) as [message Hrest].
      destruct t; simpl; try (eexists; reflexivity);
        rewrite Hrest; simpl; eexists; reflexivity.
Qed.

End TagCalls.

(** X12. A classifier call issues exactly one request and writes no
    file, whatever the transport answers: it does not retry.  What it
    throws is never the axios error itself but the [Error] built by its
    handler, with a message that starts with
    [Failed getting custom tags: ], or a TypeError raised inside the
    handler. *)
Theorem callClassifier_calls_once_and_wraps_errors
  (P : Platform) (endpoint id : string) (headers : list (string * option string))
  (data_ : jsval) (w : world) :
  let outcome := CustomTags.callClassifier P endpoint id headers data_ w in
  snd outcome
  = mkWorld (requests w ++ [CustomTags.config endpoint id headers data_]) (files w)
  /\ forall e, fst outcome = inl e ->
       (exists rest, e = Error ("Failed getting custom tags: " ++ rest))
       \/ (exists message, e = TypeError message).
Proof.
  intros outcome. split; [apply callClassifier_world |].
  unfold outcome, CustomTags.callClassifier, try_catch.
  destruct ((response <- axios P (CustomTags.config endpoint id headers data_) ;;
             lift (CustomTags.tagsOf response)) w) as [[thrown | tags] w'].
  - unfold bind, CustomTags.logFailure, lift, throw, ret, CustomTags.failureMessage.
    destruct (response_of thrown) as [r |]; simpl.
    + destruct (CustomTags.logged r) as [e' | v] eqn:Hlogged; simpl.
      * intros e H. injection H as <-. right.
        exact (logged_throws_type_errors r e' Hlogged).
      * intros e H. injection H as <-. left. eexists. reflexivity.
    + intros e H. injection H as <-. left. eexists. reflexivity.
  - simpl. discriminate.
Qed.

Lemma callClassifier_calls_once_and_wraps_errors_witness :
  let P := Samples.answering Samples.failure_reply in
  let outcome :=
    CustomTags.callClassifier P CustomTags.DEFAULT_CCAI_ENDPOINT "10021" [] JNull initial in
  fst outcome = inl (Error "Failed getting custom tags: 500 Internal Server Error")
  /\ snd outcome
     = mkWorld [CustomTags.config CustomTags.DEFAULT_CCAI_ENDPOINT "10021" [] JNull] []
  /\ ((exists rest,
         Error "Failed getting custom tags: 500 Internal Server Error"
         = Error ("Failed getting custom tags: " ++ rest))
      \/ (exists message,
            Error "Failed getting custom tags: 500 Internal Server Error"
            = TypeError message)).
Proof.
  intros P outcome.
  destruct (callClassifier_calls_once_and_wraps_errors
              P CustomTags.DEFAULT_CCAI_ENDPOINT "10021" [] JNull initial)
    as [Hworld Herror].
  split; [reflexivity |]. split; [exact Hworld |].
  apply Herror. reflexivity.
Defined.

(** X13. A reply outside the 2xx range whose body is JSON [null] is
    not reported as a failed classifier call: reading
    [error.response.data.message] for the log throws, so the call ends
    with a TypeError that holds neither status nor status text. *)
Theorem null_error_body_hides_the_status
  (P : Platform) (endpoint id : string) (headers : list (string * option string))
  (data_ : jsval) (w : world) (r : HttpResponse) :
  http P (CustomTags.config endpoint id headers data_) = Reply r ->
  ~ (200 <= status r < 300) ->
  data r = JNull ->
  fst (CustomTags.callClassifier P endpoint id headers data_ w)
  = inl (TypeError "Cannot read properties of null (reading 'message')").
Proof.
  intros Hhttp Hbad Hnull.
  unfold CustomTags.callClassifier, try_catch, bind, axios, lift,
    CustomTags.logFailure, throw, ret.
  rewrite Hhttp, (rejected_range r Hbad). simpl.
  unfold CustomTags.logged. rewrite Hnull. reflexivity.
Qed.

Lemma null_error_body_hides_the_status_witness :
  fst (CustomTags.callClassifier
         (Samples.answering (mkResponse 502 "Bad Gateway" [] JNull))
         CustomTags.DEFAULT_CCAI_ENDPOINT "10021" [] JNull initial)
  = inl (TypeError "Cannot read properties of null (reading 'message')").
Proof.
  apply (null_error_body_hides_the_status
           (Samples.answering (mkResponse 502 "Bad Gateway" [] JNull))
           CustomTags.DEFAULT_CCAI_ENDPOINT "10021" [] JNull initial
           (mkResponse 502 "Bad Gateway" [] JNull)).
  - reflexivity.
  - simpl. lia.
  - reflexivity.
Defined.

(** ** The tag worker as a whole *)

(** X14. When every configured classifier answers with a 2xx reply
    whose [result[0].tags] is an array of tags, the tag worker returns
    normally, has issued exactly one request per classifier in the
    order of the ids, and has written one label per tag: the labels of
    the first classifier first, each classifier's tags in the order it
    sent them, none dropped. *)
Theorem tag_worker_writes_every_tag_in_call_order
  (P : Platform) (source : Source) (rendition : Rendition) (w : world) (size : Z)
  (tags : string -> list (string * Q)) :
  fs_stat P (source_path source) = Some size ->
  size <> 0 ->
  (forall id, In id (CustomTags.classifier_ids rendition) ->
     Shape.answers P source rendition id (JArr (map Spec.tagValue (tags id)))) ->
  let ids := CustomTags.classifier_ids rendition in
  let items := map Spec.labelItem (flat_map tags ids) in
  CustomTags.main P source rendition w
  = (inr tt,
     mkWorld (requests w ++ Shape.calls P source rendition ids)
             (files w ++ [(rendition_path rendition, [("ccai:labels", items)])]))
  /\ List.length items = list_sum (map (fun id => List.length (tags id)) ids).
Proof.
  intros Hstat Hsize Hanswers ids items. split.
  - unfold CustomTags.main, bind, stat. rewrite Hstat. unfold ret.
    apply Z.eqb_neq in Hsize. rewrite Hsize.
    pose proof (collectTags_prefix P (CustomTags.endpoint rendition)
                  (CustomTags.requestHeaders P rendition) (CustomTags.requestData source)
                  (fun id => JArr (map Spec.tagValue (tags id)))
                  (CustomTags.classifier_ids rendition) [] [] w Hanswers) as Hloop.
    rewrite app_nil_r in Hloop. rewrite Hloop. simpl CustomTags.collectTags.
    unfold ret. rewrite fold_concat_arrays. simpl app.
    unfold lift. rewrite labels_of_tags. reflexivity.
  - unfold items. rewrite length_map.
    induction ids as [| id rest IH]; simpl.
    + reflexivity.
    + rewrite length_app, IH. reflexivity.
Qed.

Lemma tag_worker_writes_every_tag_in_call_order_witness :
  let P := Samples.two_classifiers
             (Samples.tags_reply [("indoor", 2 # 10); ("table", 1 # 10)])
             (Samples.tags_reply [("person", 9 # 10)]) in
  let tags id := if String.eqb id "10021"
                 then [("indoor", 2 # 10); ("table", 1 # 10)]
                 else [("person", 9 # 10)] in
  CustomTags.main P Samples.source Samples.rendition initial
  = (inr tt,
     mkWorld (Shape.calls P Samples.source Samples.rendition ["10021"; "10023"])
             [("/out/rendition.xmp",
               [("ccai:labels",
                 map Spec.labelItem
                   [("indoor", 2 # 10); ("table", 1 # 10); ("person", 9 # 10)])])])
  /\ List.length (map Spec.labelItem (flat_map tags ["10021"; "10023"])) = 3%nat.
Proof.
  intros P tags.
  apply (tag_worker_writes_every_tag_in_call_order
           P Samples.source Samples.rendition initial 1024 tags).
  - reflexivity.
  - lia.
  - intros id [<- | [<- | []]]; eexists; (split; [reflexivity |]);
      (split; [unfold Shape.accepted; simpl; lia | reflexivity]).
Defined.

(** X15. The tag worker stops at the first classifier that is answered
    outside the 2xx range: when the classifiers before it all answer,
    the requests issued are those for them and for the failing one, in
    order; no request is issued for any classifier after it, the
    worker throws and nothing is written. *)
Theorem tag_worker_stops_at_first_failure
  (P : Platform) (source : Source) (rendition : Rendition) (w : world) (size : Z)
  (answer : string -> jsval) (ok rest : list string) (bad : string) (r : HttpResponse) :
  fs_stat P (source_path source) = Some size ->
  size <> 0 ->
  CustomTags.classifier_ids rendition = (ok ++ bad :: rest)%list ->
  (forall id, In id ok -> Shape.answers P source rendition id (answer id)) ->
  http P (CustomTags.config (CustomTags.endpoint rendition) bad
            (CustomTags.requestHeaders P rendition) (CustomTags.requestData source))
  = Reply r ->
  ~ (200 <= status r < 300) ->
  exists e,
    CustomTags.main P source rendition w
    = (inl e,
       mkWorld (requests w ++ Shape.calls P source rendition (ok ++ [bad])) (files w)).
Proof.
  intros Hstat Hsize Hids Hok Hhttp Hbad.
  unfold CustomTags.main, bind, stat. rewrite Hstat. unfold ret.
  apply Z.eqb_neq in Hsize. rewrite Hsize, Hids.
  rewrite (collectTags_prefix P _ _ _ answer ok (bad :: rest) [] w Hok).
  simpl CustomTags.collectTags. unfold bind.
  match goal with
  | |- context [CustomTags.callClassifier P ?ep bad ?hs ?d ?w1] =>
      pose proof (callClassifier_world P ep bad hs d w1) as Hworld;
      destruct (callClassifier_rejected P ep bad hs d w1 r Hhttp Hbad) as [e He];
      destruct (CustomTags.callClassifier P ep bad hs d w1) as [[e' | tags] w2]
  end; simpl in *.
  - exists e'. rewrite Hworld. unfold Shape.calls.
    rewrite map_app, app_assoc. reflexivity.
  - discriminate.
Qed.

Lemma tag_worker_stops_at_first_failure_witness :
  let P := Samples.two_classifiers
             (Samples.tags_reply [("indoor", 2 # 10)]) Samples.failure_reply in
  CustomTags.classifier_ids Shape.three_ids = ["10021"; "10023"; "10025"]
  /\ exists e,
       CustomTags.main P Samples.source Shape.three_ids initial
       = (inl e, mkWorld (Shape.calls P Samples.source Shape.three_ids ["10021"; "10023"]) []).
Proof.
  intros P. split; [reflexivity |].
  apply (tag_worker_stops_at_first_failure
           P Samples.source Shape.three_ids initial 1024
           (fun _ => JArr (map Spec.tagValue [("indoor", 2 # 10)]))
           ["10021"] ["10025"] "10023" Samples.failure_reply).
  - reflexivity.
  - lia.
  - reflexivity.
  - intros id [<- | []]. eexists. split; [reflexivity |].
    split; [unfold Shape.accepted; simpl; lia | reflexivity].
  - reflexivity.
  - simpl. lia.
Defined.

(** X16. A 2xx reply whose [result[0]] has no [tags] member (or has
    [tags: null]) is accepted by the classifier call, but the value is
    then appended to the tags as one element and read as a tag: when
    all classifiers answer and one of them answers so, the worker has
    called every classifier, throws a TypeError and writes nothing. *)
Theorem reply_without_tags_fails_the_tag_worker
  (P : Platform) (source : Source) (rendition : Rendition) (w : world) (size : Z)
  (answer : string -> jsval) (id : string) :
  fs_stat P (source_path source) = Some size ->
  size <> 0 ->
  (forall id', In id' (CustomTags.classifier_ids rendition) ->
     Shape.answers P source rendition id' (answer id')) ->
  In id (CustomTags.classifier_ids rendition) ->
  answer id = JUndef \/ answer id = JNull ->
  exists message,
    CustomTags.main P source rendition w
    = (inl (TypeError message),
       mkWorld (requests w
                ++ Shape.calls P source rendition (CustomTags.classifier_ids rendition))
               (files w)).
Proof.
  intros Hstat Hsize Hanswers Hin Hmissing.
  unfold CustomTags.main, bind, stat. rewrite Hstat. unfold ret.
  apply Z.eqb_neq in Hsize. rewrite Hsize.
  pose proof (collectTags_prefix P (CustomTags.endpoint rendition)
                (CustomTags.requestHeaders P rendition) (CustomTags.requestData source)
                answer (CustomTags.classifier_ids rendition) [] [] w Hanswers) as Hloop.
  rewrite app_nil_r in Hloop. rewrite Hloop. simpl CustomTags.collectTags. unfold ret.
  assert (Hheld : In (answer id)
                    (fold_left CustomTags.concat
                       (map answer (CustomTags.classifier_ids rendition)) [])).
  { apply fold_concat_holds; [| exact Hmissing]. apply in_map. exact Hin. }
  destruct (labels_reject_missing_tags _ (answer id) Hheld Hmissing) as [message Hlabels].
  exists message. unfold lift. rewrite Hlabels. reflexivity.
Qed.

Lemma reply_without_tags_fails_the_tag_worker_witness :
  let empty_result := mkResponse 200 "OK" [] (JObj [("result", JArr [JObj []])]) in
  let P := Samples.two_classifiers (Samples.tags_reply [("indoor", 2 # 10)]) empty_result in
  exists message,
    CustomTags.main P Samples.source Samples.rendition initial
    = (inl (TypeError message),
       mkWorld (Shape.calls P Samples.source Samples.rendition ["10021"; "10023"]) []).
Proof.
  intros empty_result P.
  apply (reply_without_tags_fails_the_tag_worker
           P Samples.source Samples.rendition initial 1024
           (fun id => if String.eqb id "10021"
                      then JArr (map Spec.tagValue [("indoor", 2 # 10)])
                      else JUndef)
           "10023").
  - reflexivity.
  - lia.
  - intros id [<- | [<- | []]]; eexists; (split; [reflexivity |]);
      (split; [unfold Shape.accepted; simpl; lia | reflexivity]).
  - right. left. reflexivity.
  - left. reflexivity.
Defined.


(** ** parseTags of the human-classifier draft *)

Section ParseTags.

Import HumanClassifier.

Lemma pushTags_numbered (items : list jsval) (n : nat) (tags : list Tag) :
  pushTags (Js.number_from n items) tags
  = inr (tags ++ repeat (mkTag JUndef JUndef) (List.length items))%list.
Proof.
  revert n tags. induction items as [| x rest IH]; intros n tags; simpl.
  - rewrite app_nil_r. reflexivity.
  - rewrite IH. rewrite <- app_assoc. reflexivity.
Qed.

End ParseTags.

(** X18. [parseTags] keeps the number of tags but none of their data:
    its loop binds the property names of the tags array, not the tags,
    so for a response whose [result[0].tags] is an array of n elements
    it returns n records whose name and percentage are both
    [undefined], whatever the elements are.  A response without
    [result] gives the empty list. *)
Theorem parseTags_counts_tags_but_reads_none
  (members : list (string * jsval)) :
  (forall (first : jsval) (others items : list jsval),
      Js.lookup "result" members = Some (JArr (first :: others)) ->
      Js.get first "tags" = inr (JArr items) ->
      HumanClassifier.parseTags (JObj members)
      = inr (repeat (HumanClassifier.mkTag JUndef JUndef) (List.length items)))
  /\ (Js.lookup "result" members = None ->
      HumanClassifier.parseTags (JObj members) = inr []).
Proof.
  split.
  - intros first others items Hresult Htags.
    unfold HumanClassifier.parseTags. simpl. rewrite Hresult. simpl.
    rewrite Htags. simpl. apply pushTags_numbered.
  - intros Hresult. unfold HumanClassifier.parseTags. simpl.
    rewrite Hresult. reflexivity.
Qed.

Lemma parseTags_counts_tags_but_reads_none_witness :
  HumanClassifier.parseTags
    (data (Samples.tags_reply [("indoor", 2 # 10); ("person", 9 # 10)]))
  = inr [HumanClassifier.mkTag JUndef JUndef; HumanClassifier.mkTag JUndef JUndef]
  /\ HumanClassifier.parseTags (JObj [("message", JStr "no result")]) = inr [].
Proof.
  split.
  - apply (proj1 (parseTags_counts_tags_but_reads_none _)
             (JObj [("tags", JArr (map Spec.tagValue [("indoor", 2 # 10); ("person", 9 # 10)]))])
             []
             (map Spec.tagValue [("indoor", 2 # 10); ("person", 9 # 10)]));
      reflexivity.
  - apply (proj2 (parseTags_counts_tags_but_reads_none _)). reflexivity.
Defined.

(** ** Cutting text at a separator *)

Section Split.

Lemma prefix_cut (sep s : string) :
  prefix sep s = true -> exists rest, s = sep ++ rest.
Proof.
  revert s. induction sep as [| c sep' IH]; intros s H.
  - exists s. reflexivity.
  - destruct s as [| d s']; simpl in H; [discriminate |].
    destruct (Ascii.ascii_dec c d) as [-> | Hneq]; [| discriminate].
    destruct (IH s' H) as [rest ->]. exists rest. reflexivity.
Qed.

Lemma length_append (s t : string) :
  String.length (s ++ t) = (String.length s + String.length t)%nat.
Proof.
  induction s as [| c s' IH]; simpl; [reflexivity | rewrite IH; reflexivity].
Qed.

Lemma split_aux_skip (sep dropped rest : string) :
  JsString.split_aux sep (dropped ++ rest) (String.length dropped)
  = JsString.split_aux sep rest 0.
Proof.
  induction dropped as [| c dropped' IH]; simpl.
  - destruct rest; reflexivity.
  - exact IH.
Qed.

Lemma concat_cons (sep : string) (c : ascii) (p : string) (ps : list string) :
  String.concat sep (String c p :: ps) = String c (String.concat sep (p :: ps)).
Proof.
  destruct ps; reflexivity.
Qed.

Lemma split_aux_joins (sep' : string) (c : ascii) (n : nat) :
  forall s, (String.length s <= n)%nat ->
    String.concat (String c sep')
      (fst (JsString.split_aux (String c sep') s 0)
       :: snd (JsString.split_aux (String c sep') s 0))
    = s.
Proof.
  induction n as [| n IH]; intros s Hlen.
  - destruct s; [reflexivity | simpl in Hlen; lia].
  - destruct s as [| d r]; [reflexivity |].
    simpl in Hlen.
    change (JsString.split_aux (String c sep') (String d r) 0)
      with (if prefix (String c sep') (String d r)
            then (EmptyString,
                  let (p, ps) :=
                    JsString.split_aux (String c sep') r
                      (Nat.pred (String.length (String c sep'))) in
                  p :: ps)
            else let (p, ps) := JsString.split_aux (String c sep') r 0 in
                 (String d p, ps)).
    destruct (prefix (String c sep') (String d r)) eqn:Hprefix.
    + destruct (prefix_cut _ _ Hprefix) as [rest Hcut].
      simpl in Hcut. injection Hcut as -> ->.
      simpl Nat.pred. rewrite split_aux_skip.
      assert (Hrest : (String.length rest <= n)%nat).
      { rewrite length_append in Hlen. lia. }
      specialize (IH rest Hrest).
      destruct (JsString.split_aux (String c sep') rest 0) as [p ps].
      simpl fst in *. simpl snd in *.
      change (String.concat (String c sep') (EmptyString :: p :: ps))
        with (EmptyString ++ String c sep' ++ String.concat (String c sep') (p :: ps)).
      rewrite IH. reflexivity.
    + assert (Hr : (String.length r <= n)%nat) by lia.
      specialize (IH r Hr).
      destruct (JsString.split_aux (String c sep') r 0) as [p ps].
      simpl fst in *. simpl snd in *.
      rewrite concat_cons, IH. reflexivity.
Qed.

Lemma split_joins (s sep : string) :
  sep <> EmptyString -> String.concat sep (JsString.split s sep) = s.
Proof.
  intros Hsep. destruct sep as [| c sep']; [congruence |].
  unfold JsString.split.
  pose proof (split_aux_joins sep' c (String.length s) s (Nat.le_refl _)) as H.
  destruct (JsString.split_aux (String c sep') s 0) as [p ps]. exact H.
Qed.

End Split.

(** X19. Cutting loses nothing.  The parts [parseColors] examines,
    joined again by the delimiter made from the boundary, are the body
    of the response; and the classifier ids of the tag worker, joined
    by commas, are the configured list of ids. *)
Theorem cutting_and_joining_gives_the_text_back
  (ct body : string) (rendition : Rendition) :
  String.concat ("--" ++ multipart.boundary_item (JsString.split ct ";"))
    (Spec.partsOf ct body)
  = body
  /\ String.concat "," (CustomTags.classifier_ids rendition)
     = JsString.or_default (instruction rendition "CLASSIFIER_IDS")
         CustomTags.DEFAULT_CLASSIFIER_IDS.
Proof.
  split.
  - unfold Spec.partsOf. apply split_joins. discriminate.
  - unfold CustomTags.classifier_ids. apply split_joins. discriminate.
Qed.
